(** * Authentication controller and HTTP entry point of the task/dashboard
      backend: a shallow embedding and its verified properties.

    Sources embedded here:
    - [backend/src/controllers/authController.js]: [createSendToken],
      [sendToken], [filterObject], [logIn], [protect], [updateMyPassword],
      [updateMe], [logOut];
    - the HTTP entry point (the Express application with its middleware
      stack, the four mounted routers and the fallback handler).

    JavaScript objects used as dictionaries are finite maps ([gmap]); the
    user collection is a list of documents in natural order; handlers run in
    a small state-and-early-exit monad over the collection that also records
    every call made to a collaborator, in the order in which it is made. *)

From Stdlib Require Import ZArith Ascii String List Lia Bool.
From Stdlib Require Import DecimalString DecimalZ.
From stdpp Require Import base option list gmap strings fin_maps.

Local Open Scope string_scope.
Local Open Scope Z_scope.

(** ** JavaScript strings *)

Module Js.

(** [s.split(sep)] for a one-character separator: the pieces between the
    occurrences of [sep], empty pieces included; never the empty list. *)
Fixpoint split (sep : ascii) (s : string) : list string :=
  match s with
  | EmptyString => [EmptyString]
  | String c rest =>
      if Ascii.eqb c sep then EmptyString :: split sep rest
      else match split sep rest with
           | piece :: pieces => String c piece :: pieces
           | [] => [String c EmptyString]
           end
  end.

(** [s.startsWith(p)]. *)
Definition startsWith (p s : string) : bool := String.prefix p s.

(** Truthiness of a value that is a string or [undefined]: a string is
    truthy when it is not empty. *)
Definition truthy (v : option string) : bool :=
  match v with
  | Some EmptyString => false
  | Some _ => true
  | None => false
  end.

(** The string a value known to be truthy is. *)
Definition text (v : option string) : string := default EmptyString v.

(** [sep] does not occur in [s]. *)
Fixpoint lacks (sep : ascii) (s : string) : bool :=
  match s with
  | EmptyString => true
  | String c rest => negb (Ascii.eqb c sep) && lacks sep rest
  end.

End Js.

(** ** [filterObject] *)

(** [Object.keys(obj)]. *)
Definition Object_keys `(obj : gmap string V) : list string :=
  (map_to_list obj).*1.

(** [o[key] = v] on a plain object, as it shows in the object's own
    properties: the property is created or overwritten, except that the key
    ["__proto__"] reaches the prototype setter and creates no property. *)
Definition assign {V} (key : string) (v : V) (o : gmap string V)
  : gmap string V :=
  if String.eqb key "__proto__" then o else <[key := v]> o.

(** The callback of the [forEach] in [filterObject]: [key] is copied when it
    is an allowed field. *)
Definition copyIfAllowed {V} (obj : gmap string V) (allowedFields : list string)
  (filteredObject : gmap string V) (key : string) : gmap string V :=
  if bool_decide (key ∈ allowedFields)
  then match obj !! key with
       | Some v => assign key v filteredObject
       | None => filteredObject
       end
  else filteredObject.

(** [filterObject(obj, ...allowedFields)]: a fresh object that receives
    [obj[key]] for each own key of [obj] listed in [allowedFields].  Objects
    are the finite maps of their own properties. *)
Definition filterObject {V} (obj : gmap string V) (allowedFields : list string)
  : gmap string V :=
  foldl (copyIfAllowed obj allowedFields) ∅ (Object_keys obj).

(** ** Configuration and data model *)

(** [process.env] as read by the controller.  [JWT_EXPIRES_IN] is the
    token lifetime in seconds, as jsonwebtoken resolves the configured span;
    [COOKIE_EXPIRES_IN] is the cookie lifetime in days. *)
Record Env := {
  JWT_SECRET : string;
  JWT_EXPIRES_IN : Z;
  COOKIE_EXPIRES_IN : Z;
  NODE_ENV : option string
}.

(** [process.env.NODE_ENV === "development"]. *)
Definition isDevelopment (env : Env) : bool :=
  bool_decide (NODE_ENV env = Some "development").

Module User.

(** Modelled from the spec: the schema of the user model is not among the
    sources.  A user document is an identity record with an email, a hashed
    password, a password-change time and role and status fields, next to the
    [name] the controller reads and writes.  [password] holds the stored
    hash when the field is selected and the plain text between an assignment
    and the next save; [passwordChangedAt] is a time in milliseconds. *)
Record Doc := {
  _id : string;
  name : string;
  email : string;
  role : string;
  status : string;
  password : option string;
  passwordConfirm : option string;
  passwordChangedAt : option Z
}.

Definition set_password (v : option string) (d : Doc) : Doc :=
  {| _id := _id d; name := name d; email := email d; role := role d;
     status := status d; password := v;
     passwordConfirm := passwordConfirm d;
     passwordChangedAt := passwordChangedAt d |}.

Definition set_passwordConfirm (v : option string) (d : Doc) : Doc :=
  {| _id := _id d; name := name d; email := email d; role := role d;
     status := status d; password := password d;
     passwordConfirm := v;
     passwordChangedAt := passwordChangedAt d |}.

Definition set_passwordChangedAt (v : option Z) (d : Doc) : Doc :=
  {| _id := _id d; name := name d; email := email d; role := role d;
     status := status d; password := password d;
     passwordConfirm := passwordConfirm d;
     passwordChangedAt := v |}.

(** [$set] of an update object: each path of the schema named by a key of
    [update] receives that key's value; keys that name no path are ignored
    and paths not named keep their value. *)
Definition applyUpdate (update : gmap string string) (d : Doc) : Doc :=
  {| _id := _id d;
     name := default (name d) (update !! "name");
     email := default (email d) (update !! "email");
     role := default (role d) (update !! "role");
     status := default (status d) (update !! "status");
     password := from_option Some (password d) (update !! "password");
     passwordConfirm :=
       from_option Some (passwordConfirm d) (update !! "passwordConfirm");
     passwordChangedAt := passwordChangedAt d |}.

(** The projection a query returns unless the password is selected
    explicitly: the password field is hidden. *)
Definition hidePassword (d : Doc) : Doc := set_password None d.

End User.

(** Errors that reach [next]: the application's [ErrorHandler(message,
    statusCode)] (the class of [utils/ErrorHandler], taken as the pair of its
    constructor's arguments), jsonwebtoken's verification errors, a
    [TypeError] from a property access on [null] or [undefined], another
    error thrown by a library, a validation error of the data layer, and the
    [URIError] of a failed [decodeURIComponent] with the message and the
    status the framework gives it. *)
Inductive AppError :=
| ErrorHandler (message : string) (statusCode : Z)
| JsonWebTokenError (message : string)
| TokenExpiredError
| TypeError
| JsError (message : string)
| ValidationError
| URIError (message : string) (status : Z).

Record CookieOptions := {
  expires : Z;
  secure : bool;
  sameSite : string;
  httpOnly : bool;
  path : string
}.

Record Cookie := {
  cookieName : string;
  cookieValue : string;
  cookieOptions : CookieOptions
}.

(** The JSON bodies the controller and the entry point send. *)
Inductive Body :=
| TokenBody (status token : string) (user : User.Doc)
| UserBody (status : string) (user : option User.Doc)
| StatusBody (status : string)
| StatusMessageBody (status message : string)
| MessageBody (message : string)
| EmptyBody.

Record Response := {
  statusCode : Z;
  cookies : list Cookie;
  body : Body
}.

(** The parts of a request the controller reads: [req.headers.authorization],
    [req.cookies.jwt], [req.body] and [req.user]. *)
Record Request := {
  authorization : option string;
  cookies_jwt : option string;
  reqBody : gmap string string;
  reqUser : option User.Doc
}.

Definition set_reqUser (u : User.Doc) (req : Request) : Request :=
  {| authorization := authorization req; cookies_jwt := cookies_jwt req;
     reqBody := reqBody req; reqUser := Some u |}.

Definition set_reqBody (b : gmap string string) (req : Request) : Request :=
  {| authorization := authorization req; cookies_jwt := cookies_jwt req;
     reqBody := b; reqUser := reqUser req |}.

Definition set_cookies_jwt (c : option string) (req : Request) : Request :=
  {| authorization := authorization req; cookies_jwt := c;
     reqBody := reqBody req; reqUser := reqUser req |}.

(** What a handler does with a request: [next()], [next(err)], or a
    response sent. *)
Inductive Outcome :=
| Next (req : Request)
| NextError (err : AppError)
| Send (res : Response).

(** ** Collaborators outside the repository's own code *)

(** The claims a token carries: [{ id, iat, exp }], times in seconds. *)
Record Payload := {
  id : string;
  iat : Z;
  exp : Z
}.

(** The primitives jsonwebtoken builds a compact HS256 token from: the
    encoded protected header [sign] emits, the base64url encoding of the
    JSON payload with its decoder (which yields the claims of a payload of
    the shape [{ id, iat, exp }]), and the base64url HMAC of the signing
    input under a key.  [verifyOther] is the library's answer for a
    three-segment token of another make: a header other than the one [sign]
    emits (another algorithm, another spelling of the header) or a payload
    that is not of that shape. *)
Class JwtPrimitives := {
  encodedHeader : string;
  encodePayload : Payload -> string;
  decodePayload : string -> option Payload;
  hmac : string -> string -> string;
  verifyOther : string -> string -> Z -> AppError + Payload
}.

(** What base64url guarantees: decoding inverts encoding, and no encoded
    segment contains a dot or a space. *)
Class JwtPrimitivesOk (P : JwtPrimitives) : Prop := {
  decode_encode : forall p, decodePayload (encodePayload p) = Some p;
  header_lacks : forall c, c = "."%char \/ c = " "%char ->
                           Js.lacks c encodedHeader = true;
  payload_lacks : forall c p, c = "."%char \/ c = " "%char ->
                              Js.lacks c (encodePayload p) = true;
  hmac_lacks : forall c k m, c = "."%char \/ c = " "%char ->
                             Js.lacks c (hmac k m) = true
}.

(** The one-way password hash of the data layer and the comparison of a
    candidate password with a stored hash (the user model's
    [comparePasswords]). *)
Class PasswordHash := {
  hashPassword : string -> string;
  comparePasswords : string -> string -> bool
}.

(** ** The handler monad *)

(** Calls to collaborators, recorded in the order in which they are made. *)
Inductive Call :=
| CallJwtVerify (token : string)
| CallFindById (userId : string)
| CallFindOne (userEmail : string)
| CallComparePasswords (userId : string)
| CallPasswordChangedAfter (userId : string) (JWTTimestamp : Z)
| CallSave (userId : string)
| CallFindByIdAndUpdate (userId : string) (update : gmap string string).

(** The state a handler runs in: the user collection and the calls made so
    far. *)
Record World := {
  users : list User.Doc;
  calls : list Call
}.

(** An asynchronous computation: it either throws (a rejected promise) or
    yields a value, and leaves a world behind. *)
Definition Async (A : Type) : Type := World -> (AppError + A) * World.

Definition throw {A} (e : AppError) : Async A := fun w => (inl e, w).

#[export] Instance async_ret : MRet Async := fun A a w => (inr a, w).

#[export] Instance async_bind : MBind Async := fun A B k m w =>
  match m w with
  | (inl e, w') => (inl e, w')
  | (inr a, w') => k a w'
  end.

(** Records a call. *)
Definition call (c : Call) : Async unit :=
  fun w => (inr tt, {| users := users w; calls := calls w ++ [c] |}).

Definition getUsers : Async (list User.Doc) := fun w => (inr (users w), w).

Definition putUsers (us : list User.Doc) : Async unit :=
  fun w => (inr tt, {| users := us; calls := calls w |}).

(** Modelled from the spec: [utils/catchAsync] is not among the sources.
    [catchAsync(fn)] runs the handler and hands a rejection of its promise
    to [next], so that a request-scoped error becomes an error response and
    never escapes the request. *)
Definition catchAsync (fn : Request -> Async Outcome)
  : Request -> World -> Outcome * World :=
  fun req w => match fn req w with
               | (inl err, w') => (NextError err, w')
               | (inr o, w') => (o, w')
               end.

(** [try { body } catch (err) { handler(err) }]. *)
Definition tryCatch {A} (body : Async A) (handler : AppError -> Async A)
  : Async A :=
  fun w => match body w with
           | (inl err, w') => handler err w'
           | (inr a, w') => (inr a, w')
           end.

(** ** jsonwebtoken *)

Module jwt.
Section Jwt.
Context {P : JwtPrimitives}.

(** [jwt.sign({ id }, secret, { expiresIn })] at clock reading [now]
    (milliseconds): the payload gets [iat], the clock in whole seconds, and
    [exp = iat + expiresIn]; the token is
    [header.payload.signature]. *)
Definition sign (userId secret : string) (expiresIn now : Z) : string :=
  let issued := now / 1000 in
  let payload := {| id := userId; iat := issued; exp := issued + expiresIn |} in
  let signingInput := encodedHeader ++ "." ++ encodePayload payload in
  signingInput ++ "." ++ hmac secret signingInput.

(** [jwt.verify(token, secret)] at clock reading [now].  A token that does
    not have three segments is malformed.  A token with the header [sign]
    emits and a payload of claims [{ id, iat, exp }] must carry the HS256
    signature of its first two segments under [secret] and an expiry later
    than the clock in whole seconds.  For a three-segment token of another
    make the answer is the library's, [verifyOther]. *)
Definition verify (token secret : string) (now : Z) : AppError + Payload :=
  match Js.split "." token with
  | [h; p; s] =>
      match decodePayload p with
      | None => verifyOther token secret now
      | Some payload =>
          if negb (String.eqb h encodedHeader)
          then verifyOther token secret now
          else if negb (String.eqb s (hmac secret (h ++ "." ++ p)))
          then inl (JsonWebTokenError "invalid signature")
          else if exp payload <=? now / 1000
          then inl TokenExpiredError
          else inr payload
      end
  | _ => inl (JsonWebTokenError "jwt malformed")
  end.

End Jwt.
End jwt.

(** [promisify(jwt.verify)(token, secret)], awaited. *)
Definition jwt_verify_async `{JwtPrimitives} (token secret : string) (now : Z)
  : Async Payload :=
  _ ← call (CallJwtVerify token);
  match jwt.verify token secret now with
  | inl err => throw err
  | inr decoded => mret decoded
  end.

(** ** The user model *)

Module UserModel.
Section UserModel.
Context {H : PasswordHash}.

(** Modelled from the spec: the schema of the user model is not among the
    sources.  The password is a normally-hidden field: a query yields it only
    with [.select("+password")]. *)
Definition project (selectPassword : bool) (d : User.Doc) : User.Doc :=
  if selectPassword then d else User.hidePassword d.

(** [User.findById(id)], with [.select("+password")] when [selectPassword]. *)
Definition findById (userId : string) (selectPassword : bool)
  : Async (option User.Doc) :=
  _ ← call (CallFindById userId);
  us ← getUsers;
  mret (project selectPassword
          <$> List.find (fun d => String.eqb (User._id d) userId) us).

(** [User.findOne({ email })], with [.select("+password")] when
    [selectPassword]. *)
Definition findOne (userEmail : string) (selectPassword : bool)
  : Async (option User.Doc) :=
  _ ← call (CallFindOne userEmail);
  us ← getUsers;
  mret (project selectPassword
          <$> List.find (fun d => String.eqb (User.email d) userEmail) us).

(** [user.comparePasswords(candidate, user.password)], awaited: the hash
    comparison needs a hash to compare with. *)
Definition comparePasswords_async (user : User.Doc) (candidate : string)
  : Async bool :=
  _ ← call (CallComparePasswords (User._id user));
  match User.password user with
  | Some stored => mret (comparePasswords candidate stored)
  | None => throw (JsError "data and hash arguments required")
  end.

(** Modelled from the spec: the user model's [passwordChangedAfter] is not
    among the sources.  The token's issue time (seconds) is compared with
    the user's last password change (milliseconds): true when the password
    changed after issuance, false for a user who never changed it. *)
Definition passwordChangedAfter (user : User.Doc) (JWTTimestamp : Z) : bool :=
  match User.passwordChangedAt user with
  | Some changedAt => JWTTimestamp <? changedAt / 1000
  | None => false
  end.

Definition passwordChangedAfter_call (user : User.Doc) (JWTTimestamp : Z)
  : Async bool :=
  _ ← call (CallPasswordChangedAfter (User._id user) JWTTimestamp);
  mret (passwordChangedAfter user JWTTimestamp).

(** The document with identifier [userId] replaced by [d]. *)
Definition replaceDoc (userId : string) (d : User.Doc) (us : list User.Doc)
  : list User.Doc :=
  List.map (fun x => if String.eqb (User._id x) userId then d else x) us.

(** Modelled from the spec: the user model's save hooks are not among the
    sources.  Saving a document whose password was assigned stores the hash
    of that password and sets the password-changed-at time to the clock; the
    confirmation is not persisted.  A document without a password fails
    validation. *)
Definition save (now : Z) (user : User.Doc) : Async User.Doc :=
  _ ← call (CallSave (User._id user));
  match User.password user with
  | None => throw ValidationError
  | Some plain =>
      let saved :=
        User.set_passwordChangedAt (Some now)
          (User.set_passwordConfirm None
             (User.set_password (Some (hashPassword plain)) user)) in
      us ← getUsers;
      _ ← putUsers (replaceDoc (User._id user) saved us);
      mret saved
  end.

(** The document [save] stores for a user whose password was set to
    [plain]. *)
Definition savedDoc (now : Z) (plain : string) (u : User.Doc)
  : User.Doc :=
  {| User._id := User._id u; User.name := User.name u;
     User.email := User.email u; User.role := User.role u;
     User.status := User.status u;
     User.password := Some (hashPassword plain);
     User.passwordConfirm := None;
     User.passwordChangedAt := Some now |}.

(** Modelled from the spec: the update path of the data layer is not among
    the sources.  [User.findByIdAndUpdate(id, update, { new: true })]
    applies the update to the document with that identifier and yields the
    updated document, or [null] when there is none. *)
Definition findByIdAndUpdate (userId : string) (update : gmap string string)
  : Async (option User.Doc) :=
  _ ← call (CallFindByIdAndUpdate userId update);
  us ← getUsers;
  match List.find (fun d => String.eqb (User._id d) userId) us with
  | None => mret None
  | Some d =>
      let updated := User.applyUpdate update d in
      _ ← putUsers (replaceDoc userId updated us);
      mret (Some (User.hidePassword updated))
  end.

End UserModel.
End UserModel.

(** ** The authentication controller *)

Section AuthController.
Context {P : JwtPrimitives} {H : PasswordHash}.
Variable env : Env.

(** The clock reading ([Date.now()], milliseconds) of the request being
    handled. *)
Variable now : Z.

(** [createSendToken(id)]. *)
Definition createSendToken (userId : string) : string :=
  jwt.sign userId (JWT_SECRET env) (JWT_EXPIRES_IN env) now.

(** The options of the session cookie that depend on the deployment mode. *)
Definition cookieSecure : bool := if isDevelopment env then false else true.

Definition cookieSameSite : string :=
  if isDevelopment env then "Strict" else "None".

(** [sendToken(user, statusCode, res)]: the response it builds and sends. *)
Definition sendToken (user : User.Doc) (code : Z) : Response :=
  let token := createSendToken (User._id user) in
  {| statusCode := code;
     cookies :=
       [ {| cookieName := "jwt";
            cookieValue := token;
            cookieOptions :=
              {| expires := now + COOKIE_EXPIRES_IN env * 24 * 60 * 60 * 1000;
                 secure := cookieSecure;
                 sameSite := cookieSameSite;
                 httpOnly := true;
                 path := "/" |} |} ];
     body := TokenBody "success" token user |}.

(** An outcome with the [jwt] cookie of the request it passes on replaced. *)
Definition withCookie (c : option string) (o : Outcome) : Outcome :=
  match o with
  | Next req => Next (set_cookies_jwt c req)
  | _ => o
  end.

(** The options of the first cookie a response sets. *)
Definition firstCookieOptions (res : Response) : option CookieOptions :=
  cookieOptions <$> head (cookies res).

(** [exports.logIn], before [catchAsync]. *)
Definition logIn_fn (req : Request) : Async Outcome :=
  let email := reqBody req !! "email" in
  let password := reqBody req !! "password" in
  if negb (Js.truthy email) || negb (Js.truthy password)
  then mret (NextError (ErrorHandler "Please enter email and password" 401))
  else
    user ← UserModel.findOne (Js.text email) true;
    match user with
    | None => mret (NextError (ErrorHandler "Invalid email or password" 401))
    | Some user =>
        matches ← UserModel.comparePasswords_async user (Js.text password);
        if negb matches
        then mret (NextError (ErrorHandler "Invalid email or password" 401))
        else mret (Send (sendToken user 200))
    end.

Definition logIn := catchAsync logIn_fn.

(** The token [protect] reads from the request: the second space-separated
    piece of an [Authorization] header that starts with [Bearer], else the
    [jwt] cookie when it is truthy, else [undefined]. *)
Definition requestToken (req : Request) : option string :=
  if Js.truthy (authorization req)
     && Js.startsWith "Bearer" (Js.text (authorization req))
  then Js.split " " (Js.text (authorization req)) !! 1%nat
  else if Js.truthy (cookies_jwt req) then cookies_jwt req
  else None.

(** [exports.protect], before [catchAsync]. *)
Definition protect_fn (req : Request) : Async Outcome :=
  let token := requestToken req in
  if negb (Js.truthy token)
  then mret (NextError
               (ErrorHandler
                  "You are not logged in! Please log in to access this route."
                  401))
  else
    decoded ← jwt_verify_async (Js.text token) (JWT_SECRET env) now;
    currentUser ← UserModel.findById (id decoded) false;
    match currentUser with
    | None =>
        mret (NextError
                (ErrorHandler
                   "The user belonging to this token no longer exists." 401))
    | Some currentUser =>
        changed ← UserModel.passwordChangedAfter_call currentUser (iat decoded);
        if (changed : bool)
        then mret (NextError
                     (ErrorHandler
                        "User recently changed password. Please log in again."
                        401))
        else mret (Next (set_reqUser currentUser req))
    end.

Definition protect := catchAsync protect_fn.

(** [exports.updateMyPassword], before [catchAsync]. *)
Definition updateMyPassword_fn (req : Request) : Async Outcome :=
  let password := reqBody req !! "password" in
  let passwordConfirm := reqBody req !! "passwordConfirm" in
  let newPassword := reqBody req !! "newPassword" in
  match reqUser req with
  | None => throw TypeError
  | Some reqUser =>
      user ← UserModel.findById (User._id reqUser) true;
      if negb (Js.truthy password)
      then mret (NextError (ErrorHandler "Current password is incorrect" 400))
      else
        match user with
        | None => throw TypeError
        | Some user =>
            matches ← UserModel.comparePasswords_async user (Js.text password);
            if negb matches
            then mret (NextError
                         (ErrorHandler "Current password is incorrect" 400))
            else
              let user := User.set_password newPassword user in
              let user := User.set_passwordConfirm passwordConfirm user in
              user ← UserModel.save now user;
              mret (Send (sendToken user 200))
        end
  end.

Definition updateMyPassword := catchAsync updateMyPassword_fn.

(** [exports.updateMe], before [catchAsync]. *)
Definition updateMe_fn (req : Request) : Async Outcome :=
  let filteredData := filterObject (reqBody req) ["name"; "email"; "status"] in
  match reqUser req with
  | None => throw TypeError
  | Some reqUser =>
      updatedUser ← UserModel.findByIdAndUpdate (User._id reqUser) filteredData;
      mret (Send {| statusCode := 200;
                    cookies := [];
                    body := UserBody "success" updatedUser |})
  end.

Definition updateMe := catchAsync updateMe_fn.

(** The body of [exports.logOut]: its [try] block with the [catch]
    handler. *)
Definition logOut_fn (req : Request) : Async Outcome :=
  tryCatch
    (mret (Send {| statusCode := 200;
                   cookies :=
                     [ {| cookieName := "jwt";
                          cookieValue := "loggedout";
                          cookieOptions :=
                            {| expires := now + 10 * 1000;
                               secure := cookieSecure;
                               sameSite := cookieSameSite;
                               httpOnly := true;
                               path := "/" |} |} ];
                   body := StatusBody "success" |}))
    (fun _ =>
       mret (Send {| statusCode := 500;
                     cookies := [];
                     body := StatusMessageBody "fail" "Logout failed" |})).

(** [exports.logOut]: a plain handler; what its body would throw reaches
    [next] through the framework. *)
Definition logOut (req : Request) : World -> Outcome * World :=
  fun w => match logOut_fn req w with
           | (inl err, w') => (NextError err, w')
           | (inr o, w') => (o, w')
           end.

End AuthController.

(** The calls [protect] makes, given how far the request gets. *)
Definition protectCalls `{JwtPrimitives} (env : Env) (now : Z) (req : Request)
  (w : World) : list Call :=
  match requestToken req with
  | Some (String c rest) =>
      let token := String c rest in
      CallJwtVerify token ::
      match jwt.verify token (JWT_SECRET env) now with
      | inl _ => []
      | inr decoded =>
          CallFindById (id decoded) ::
          match List.find (fun d => String.eqb (User._id d) (id decoded))
                          (users w) with
          | None => []
          | Some user =>
              [CallPasswordChangedAfter (User._id user) (iat decoded)]
          end
      end
  | _ => []
  end.

(** ** The HTTP entry point *)

(** The built-in [decodeURIComponent]: the decoded string, or nothing when
    the call throws a [URIError] (a malformed percent-escape). *)
Class UriDecoder := {
  decodeURIComponent : string -> option string
}.

Module App.

(** What routing reads of an incoming request: the method, in upper case as
    the HTTP parser delivers it, and the path without the query string. *)
Record HttpRequest := {
  method : string;
  pathname : string
}.

(** What a middleware does with a request: [next()], [next(err)], or a
    response sent. *)
Inductive Passed :=
| PassOn (req : HttpRequest)
| PassError (err : AppError)
| Respond (res : Response).

Definition Middleware := HttpRequest -> Passed.

Definition ErrorMiddleware := AppError -> HttpRequest -> Response.

(** A layer of the application stack: [app.use(mount, fn)] for a
    three-argument middleware ([app.use(fn)] mounts at ["/"]), or
    [app.use(fn)] for a four-argument error handler. *)
Inductive Layer :=
| Use (mount : string) (fn : Middleware)
| UseError (fn : ErrorMiddleware).

Definition toLower (c : ascii) : ascii :=
  let n := nat_of_ascii c in
  if (65 <=? n)%nat && (n <=? 90)%nat then ascii_of_nat (n + 32) else c.

(** What is left of [s] after the prefix [p], letters compared without
    regard to case. *)
Fixpoint stripPrefix (p s : string) : option string :=
  match p, s with
  | EmptyString, _ => Some s
  | String _ _, EmptyString => None
  | String a p', String b s' =>
      if Ascii.eqb (toLower a) (toLower b) then stripPrefix p' s' else None
  end.

(** Whether a layer mounted at a plain path [mount] (one without
    parameters or wildcards) sees a request for [path]: ["/"] sees every
    request; another mount path must be a prefix of the request path,
    case-insensitively, that ends at the end of the path or at a slash. *)
Definition mountMatches (mount path : string) : bool :=
  if String.eqb mount "/" then true
  else match stripPrefix mount path with
       | Some EmptyString => true
       | Some (String c _) => Ascii.eqb c "/"
       | None => false
       end.

(** The outcome of matching a layer against a request path. *)
Inductive Matching :=
| Matches
| Misses
| MatchFails (err : AppError).

(** The framework's answer when the stack is exhausted. *)
Definition finalHandler (err : option AppError) : Response :=
  match err with
  | None => {| statusCode := 404; cookies := []; body := EmptyBody |}
  | Some _ => {| statusCode := 500; cookies := []; body := EmptyBody |}
  end.

Section Dispatch.
Context {D : UriDecoder}.

(** The framework's [decode_param]: an empty capture is returned as it is;
    another one is decoded, and a failure is rethrown as a [URIError] with
    the framework's message and status 400. *)
Definition decode_param (val : string) : AppError + string :=
  match val with
  | EmptyString => inr val
  | _ =>
      match decodeURIComponent val with
      | Some decoded => inr decoded
      | None => inl (URIError ("Failed to decode param '" ++ val ++ "'") 400)
      end
  end.

(** A layer against a request path.  The wildcard mount ["*"] captures the
    whole path as a parameter and decodes it: it matches when the path
    decodes and fails with the decoding error otherwise.  A plain mount path
    matches as [mountMatches] says. *)
Definition matchLayer (mount path : string) : Matching :=
  if String.eqb mount "*"
  then match decode_param path with
       | inr _ => Matches
       | inl err => MatchFails err
       end
  else if mountMatches mount path then Matches else Misses.

(** The framework's dispatch: layers run in the order of their [app.use];
    a middleware is skipped when its mount path does not match or an error
    is pending, a failed match leaves its error pending, and an error
    handler is skipped unless an error is pending. *)
Fixpoint dispatch (stack : list Layer) (err : option AppError)
  (req : HttpRequest) : Response :=
  match stack with
  | [] => finalHandler err
  | Use mount fn :: rest =>
      match err with
      | Some _ => dispatch rest err req
      | None =>
          match matchLayer mount (pathname req) with
          | Matches =>
              match fn req with
              | PassOn req' => dispatch rest None req'
              | PassError e => dispatch rest (Some e) req
              | Respond res => res
              end
          | Misses => dispatch rest None req
          | MatchFails e => dispatch rest (Some e) req
          end
      end
  | UseError fn :: rest =>
      match err with
      | Some e => fn e req
      | None => dispatch rest None req
      end
  end.

End Dispatch.

(** The cors middleware as configured ([preflightContinue] left at its
    default): it answers every OPTIONS request itself with 204 and no
    content, and passes every other request on. *)
Definition cors : Middleware := fun req =>
  if String.eqb (method req) "OPTIONS"
  then Respond {| statusCode := 204; cookies := []; body := EmptyBody |}
  else PassOn req.

(** The fallback for unmatched routes: [res.status(404).json({ message:
    "Not Found" })]; for a HEAD request [res.json] sends the status and the
    headers without the body. *)
Definition fallback : Middleware := fun req =>
  Respond {| statusCode := 404; cookies := [];
             body := if String.eqb (method req) "HEAD" then EmptyBody
                     else MessageBody "Not Found" |}.

Section Application.
Context {D : UriDecoder}.

(** The third-party middleware in front of the routes, the four routers and
    the global error handler, whose code is outside the entry point. *)
Variables helmet mongoSanitize xss hpp jsonParser cookieParser urlencoded
  : Middleware.
Variables userRouter dashboardRouter taskRouter settingsRouter : Middleware.
Variable errorController : ErrorMiddleware.

(** The layers in front of the routes. *)
Definition middlewares : list Layer :=
  [ Use "/" helmet; Use "/" mongoSanitize; Use "/" xss; Use "/" hpp;
    Use "/" cors;
    Use "/" jsonParser; Use "/" cookieParser; Use "/" urlencoded ].

(** The mounted routers. *)
Definition routes : list Layer :=
  [ Use "/api/users" userRouter;
    Use "/api/dashboard" dashboardRouter;
    Use "/api/tasks" taskRouter;
    Use "/api/settings" settingsRouter ].

(** The application: the stack in the order of the [app.use] calls. *)
Definition app (req : HttpRequest) : Response :=
  dispatch (middlewares ++ routes ++ [Use "*" fallback; UseError errorController])
           None req.

End Application.

(** The request as a run of middleware hands it on, when every one of them
    calls [next()]. *)
Fixpoint handsOn (fns : list Middleware) (req : HttpRequest)
  : option HttpRequest :=
  match fns with
  | [] => Some req
  | fn :: rest =>
      match fn req with
      | PassOn req' => handsOn rest req'
      | _ => None
      end
  end.

(** The request path matches one of the mounted route prefixes. *)
Definition mounted (path : string) : bool :=
  mountMatches "/api/users" path || mountMatches "/api/dashboard" path
  || mountMatches "/api/tasks" path || mountMatches "/api/settings" path.

Definition notFound : Response :=
  {| statusCode := 404; cookies := []; body := MessageBody "Not Found" |}.

End App.

(** ** The authentication gate as the specification draws it *)

Module Gate.

(** The states of the gate over a single request. *)
Inductive State :=
| NoToken
| TokenFound (token : string)
| Verified (decoded : Payload)
| UserLoaded (decoded : Payload) (user : User.Doc)
| PasswordFresh (user : User.Doc)
| Authorized (user : User.Doc)
| Rejected (err : AppError).

(** The token of a header of the form [Bearer <token>], when the header has
    that form. *)
Definition bearerToken (header : option string) : option string :=
  match header with
  | Some h =>
      if Js.startsWith "Bearer " h
      then match String.substring 7 (String.length h - 7) h with
           | EmptyString => None
           | token => Some token
           end
      else None
  | None => None
  end.

(** Extraction as the specification words it: the token of an
    [Authorization: Bearer <token>] header, else the cookie. *)
Definition headerElseCookie (req : Request) : option string :=
  match bearerToken (authorization req) with
  | Some token => Some token
  | None => cookies_jwt req
  end.

Section Gate.
Context {P : JwtPrimitives} {H : PasswordHash}.
Variable extract : Request -> option string.
Variable env : Env.
Variable now : Z.
Variable req : Request.

Definition record (c : Call) (w : World) : World :=
  {| users := users w; calls := calls w ++ [c] |}.

(** One transition; [Authorized] and [Rejected] are terminal. *)
Definition step (sw : State * World) : State * World :=
  let (s, w) := sw in
  match s with
  | NoToken =>
      match extract req with
      | Some (String c rest) => (TokenFound (String c rest), w)
      | _ => (Rejected
                (ErrorHandler
                   "You are not logged in! Please log in to access this route."
                   401), w)
      end
  | TokenFound token =>
      match jwt.verify token (JWT_SECRET env) now with
      | inr decoded => (Verified decoded, record (CallJwtVerify token) w)
      | inl err => (Rejected err, record (CallJwtVerify token) w)
      end
  | Verified decoded =>
      match List.find (fun d => String.eqb (User._id d) (id decoded)) (users w)
      with
      | Some user => (UserLoaded decoded (User.hidePassword user),
                      record (CallFindById (id decoded)) w)
      | None => (Rejected
                   (ErrorHandler
                      "The user belonging to this token no longer exists." 401),
                 record (CallFindById (id decoded)) w)
      end
  | UserLoaded decoded user =>
      let w' := record (CallPasswordChangedAfter (User._id user) (iat decoded)) w in
      if UserModel.passwordChangedAfter user (iat decoded)
      then (Rejected
              (ErrorHandler
                 "User recently changed password. Please log in again." 401), w')
      else (PasswordFresh user, w')
  | PasswordFresh user => (Authorized user, w)
  | Authorized user => (Authorized user, w)
  | Rejected err => (Rejected err, w)
  end.

(** The gate run over a request: the five transitions from [NoToken]. *)
Definition run (w : World) : State * World :=
  step (step (step (step (step (NoToken, w))))).

Definition terminal (s : State) : bool :=
  match s with
  | Authorized _ | Rejected _ => true
  | _ => false
  end.

(** What a final state means for the request: the user attached and control
    passed on, or the rejection passed to [next]. *)
Definition outcome (s : State) : Outcome :=
  match s with
  | Authorized user => Next (set_reqUser user req)
  | Rejected err => NextError err
  | _ => NextError (JsError "the gate has not finished")
  end.

End Gate.
End Gate.

(** ** Sign-up and account deletion *)

Module Accounts.

(** The object [signUp] hands to [User.create]: the four fields it reads
    from the request body, each a string or [undefined]. *)
Record NewUser := {
  name : option string;
  email : option string;
  password : option string;
  passwordConfirm : option string
}.

(** The collection without its first document with identifier [userId]. *)
Fixpoint removeDoc (userId : string) (us : list User.Doc) : list User.Doc :=
  match us with
  | [] => []
  | x :: rest =>
      if String.eqb (User._id x) userId then rest
      else x :: removeDoc userId rest
  end.

(** [User.findByIdAndDelete(id)]: removes the document with that identifier
    and yields it, or yields [null] when there is none.  (The call log lists
    the reads and updates of the handlers above; a deletion is not
    recorded.) *)
Definition findByIdAndDelete (userId : string) : Async (option User.Doc) :=
  us ← getUsers;
  match List.find (fun d => String.eqb (User._id d) userId) us with
  | None => mret None
  | Some d =>
      _ ← putUsers (removeDoc userId us);
      mret (Some (User.hidePassword d))
  end.

End Accounts.

Section AccountController.
Context {P : JwtPrimitives}.
Variable env : Env.
Variable now : Z.

(** [User.create]: the creation path of the user model (validation, hashing
    and insertion), whose code is outside the controller. *)
Variable create : Accounts.NewUser -> Async User.Doc.

(** [exports.signUp], before [catchAsync]. *)
Definition signUp_fn (req : Request) : Async Outcome :=
  user ← create {| Accounts.name := reqBody req !! "name";
                   Accounts.email := reqBody req !! "email";
                   Accounts.password := reqBody req !! "password";
                   Accounts.passwordConfirm :=
                     reqBody req !! "passwordConfirm" |};
  mret (Send (sendToken env now user 201)).

Definition signUp := catchAsync signUp_fn.

(** [exports.deleteMe], before [catchAsync]; [userId] is
    [req.params.userId]. *)
Definition deleteMe_fn (userId : string) (req : Request) : Async Outcome :=
  _ ← Accounts.findByIdAndDelete userId;
  mret (Send {| statusCode := 204; cookies := [];
                body := StatusBody "success" |}).

Definition deleteMe (userId : string) := catchAsync (deleteMe_fn userId).

End AccountController.

(** The value of the first cookie a handler's response sets. *)
Definition sentCookie (o : Outcome) : option string :=
  match o with
  | Send res => cookieValue <$> head (cookies res)
  | _ => None
  end.

(** The token in the body of a handler's response. *)
Definition sentToken (o : Outcome) : option string :=
  match o with
  | Send {| body := TokenBody _ token _ |} => Some token
  | _ => None
  end.

Module Routing.

(** The error with which a run of middleware stops, and the request it had
    reached, when every middleware before the failing one calls [next()]. *)
Fixpoint failsWith (fns : list App.Middleware) (req : App.HttpRequest)
  : option (AppError * App.HttpRequest) :=
  match fns with
  | [] => None
  | fn :: rest =>
      match fn req with
      | App.PassOn req' => failsWith rest req'
      | App.PassError err => Some (err, req)
      | App.Respond _ => None
      end
  end.

(** The response with which a run of middleware ends, when one of them
    answers and every middleware before it calls [next()]. *)
Fixpoint answersWith (fns : list App.Middleware) (req : App.HttpRequest)
  : option Response :=
  match fns with
  | [] => None
  | fn :: rest =>
      match fn req with
      | App.PassOn req' => answersWith rest req'
      | App.PassError _ => None
      | App.Respond res => Some res
      end
  end.

End Routing.

(** ** A concrete instance of the collaborators *)

Module Demo.

Definition hexChars : string := "0123456789abcdef".

Definition hexDigit (n : nat) : ascii :=
  default "0"%char (String.get n hexChars).

Fixpoint indexOf (c : ascii) (s : string) : option nat :=
  match s with
  | EmptyString => None
  | String a rest => if Ascii.eqb a c then Some O else S <$> indexOf c rest
  end.

Definition hexValue (c : ascii) : option nat := indexOf c hexChars.

(** Two hexadecimal digits per character. *)
Fixpoint hexEncode (s : string) : string :=
  match s with
  | EmptyString => EmptyString
  | String c rest =>
      String (hexDigit (nat_of_ascii c / 16))
        (String (hexDigit (nat_of_ascii c mod 16)) (hexEncode rest))
  end.

Fixpoint hexDecode (s : string) : option string :=
  match s with
  | EmptyString => Some EmptyString
  | String _ EmptyString => None
  | String a (String b rest) =>
      match hexValue a, hexValue b, hexDecode rest with
      | Some x, Some y, Some r => Some (String (ascii_of_nat (16 * x + y)) r)
      | _, _, _ => None
      end
  end.

Definition decimal (z : Z) : string := NilEmpty.string_of_int (Z.to_int z).

Definition parseDecimal (s : string) : option Z :=
  Z.of_int <$> NilEmpty.int_of_string s.

Definition encode (p : Payload) : string :=
  hexEncode (id p) ++ "_" ++ hexEncode (decimal (iat p)) ++ "_"
  ++ hexEncode (decimal (exp p)).

Definition decode (s : string) : option Payload :=
  match Js.split "_" s with
  | [a; b; c] =>
      match hexDecode a, hexDecode b ≫= parseDecimal,
            hexDecode c ≫= parseDecimal with
      | Some i, Some t, Some e => Some {| id := i; iat := t; exp := e |}
      | _, _, _ => None
      end
  | _ => None
  end.

(** A codec and a keyed digest over the hexadecimal alphabet, standing in
    for base64url and HMAC-SHA256; tokens of another make are refused. *)
Definition primitives : JwtPrimitives :=
  {| encodedHeader := "eyJhbGciOiJIUzI1NiIsInR5cCI6IkpXVCJ9";
     encodePayload := encode;
     decodePayload := decode;
     hmac := fun key input => hexEncode (key ++ "|" ++ input);
     verifyOther := fun _ _ _ => inl (JsonWebTokenError "invalid token") |}.

Definition passwordHash : PasswordHash :=
  {| hashPassword := fun plain => "hash:" ++ plain;
     comparePasswords := fun candidate stored =>
                           String.eqb ("hash:" ++ candidate) stored |}.

Definition production : Env :=
  {| JWT_SECRET := "a-shared-secret";
     JWT_EXPIRES_IN := 3600;
     COOKIE_EXPIRES_IN := 7;
     NODE_ENV := Some "production" |}.

Definition development : Env :=
  {| JWT_SECRET := "a-shared-secret";
     JWT_EXPIRES_IN := 3600;
     COOKIE_EXPIRES_IN := 7;
     NODE_ENV := Some "development" |}.

Definition alice : User.Doc :=
  {| User._id := "5f1a";
     User.name := "Alice";
     User.email := "alice@example.com";
     User.role := "user";
     User.status := "active";
     User.password := Some "hash:correct horse";
     User.passwordConfirm := None;
     User.passwordChangedAt := None |}.

Definition world : World := {| users := [alice]; calls := [] |}.

Definition request (header cookie : option string)
  (fields : list (string * string)) (user : option User.Doc) : Request :=
  {| authorization := header; cookies_jwt := cookie;
     reqBody := list_to_map fields; reqUser := user |}.

(** The token issued for Alice at clock reading 5000. *)
Definition aliceToken : string :=
  @createSendToken primitives production 5000 "5f1a".

(** A request whose [Authorization] header is the bare word [Bearer] and
    whose [jwt] cookie holds Alice's token. *)
Definition bareBearerRequest : Request :=
  request (Some "Bearer") (Some aliceToken) [] None.

(** A request presenting Alice's token in the [Authorization] header. *)
Definition bearerRequest : Request :=
  request (Some ("Bearer " ++ aliceToken)) None [] None.

(** Log-in requests: for an email no user has, and for Alice's email with
    a wrong and with the right password. *)
Definition unknownEmailLogIn : Request :=
  request None None
    [("email", "bob@example.com"); ("password", "correct horse")] None.

Definition wrongPasswordLogIn : Request :=
  request None None
    [("email", "alice@example.com"); ("password", "battery staple")] None.

Definition goodLogIn : Request :=
  request None None
    [("email", "alice@example.com"); ("password", "correct horse")] None.


Definition goodPasswordUpdate : Request :=
  request None None
    [("password", "correct horse"); ("newPassword", "n3w");
     ("passwordConfirm", "n3w")] (Some alice).


(** Alice after a password change at clock reading 8000. *)
Definition aliceChanged : User.Doc :=
  User.set_passwordChangedAt (Some 8000) alice.

(** A log-in request without a password. *)
Definition incompleteLogIn : Request :=
  request None None [("email", "alice@example.com")] None.

(** Bob, a second user, and a store holding both. *)
Definition bob : User.Doc :=
  {| User._id := "7c2e";
     User.name := "Bob";
     User.email := "bob@example.com";
     User.role := "admin";
     User.status := "active";
     User.password := Some "hash:tr0ub4dor";
     User.passwordConfirm := None;
     User.passwordChangedAt := None |}.

Definition twoUsers : World := {| users := [alice; bob]; calls := [] |}.

(** A creation path for the examples: it refuses a missing field or a
    confirmation that differs from the password, and otherwise appends a
    document with a fixed identifier and the hashed password. *)
Definition createUser (new : Accounts.NewUser) : Async User.Doc :=
  match Accounts.name new, Accounts.email new, Accounts.password new,
        Accounts.passwordConfirm new with
  | Some n, Some e, Some p, Some c =>
      if String.eqb p c
      then
        let doc := {| User._id := "9d41"; User.name := n; User.email := e;
                      User.role := "user"; User.status := "active";
                      User.password := Some ("hash:" ++ p);
                      User.passwordConfirm := None;
                      User.passwordChangedAt := None |} in
        us ← getUsers;
        _ ← putUsers (us ++ [doc]);
        mret doc
      else throw ValidationError
  | _, _, _, _ => throw ValidationError
  end.

(** Sign-up requests: one that also submits a role, and the same
    without it. *)
Definition signUpWithRole : Request :=
  request None None
    [("name", "Carol"); ("email", "carol@example.com");
     ("password", "pa55word"); ("passwordConfirm", "pa55word");
     ("role", "admin")] None.

Definition signUpPlain : Request :=
  request None None
    [("name", "Carol"); ("email", "carol@example.com");
     ("password", "pa55word"); ("passwordConfirm", "pa55word")] None.

(** A request carrying only a [jwt] cookie. *)
Definition cookieRequest (cookie : option string) : Request :=
  request None cookie [] None.

(** A token for Alice signed under another secret. *)
Definition foreignToken : string :=
  @jwt.sign primitives "5f1a" "another-secret" 3600 5000.

(** A body parser that fails on every request, and a router that answers
    every request. *)
Definition failingParser : App.Middleware := fun _ =>
  App.PassError (JsError "Unexpected token").

Definition answeringRouter : App.Middleware := fun _ =>
  App.Respond {| statusCode := 200; cookies := [];
                 body := StatusBody "success" |}.

(** A decoder for the examples, restricted to ASCII: it decodes the
    escapes [%00] to [%7F], in either case of the hexadecimal digits, and
    refuses every other use of the percent sign, among them the escapes of
    multi-byte characters, which the built-in function decodes. *)
Fixpoint percentDecode (s : string) : option string :=
  match s with
  | EmptyString => Some EmptyString
  | String "%" (String a (String b rest)) =>
      match hexValue (App.toLower a), hexValue (App.toLower b),
            percentDecode rest with
      | Some x, Some y, Some r =>
          if (x <? 8)%nat then Some (String (ascii_of_nat (16 * x + y)) r)
          else None
      | _, _, _ => None
      end
  | String "%" _ => None
  | String c rest => String c <$> percentDecode rest
  end.

Definition uriDecoder : UriDecoder := {| decodeURIComponent := percentDecode |}.

(** A middleware that only calls [next()]. *)
Definition passThrough : App.Middleware := App.PassOn.

Definition plainError : App.ErrorMiddleware := fun _ _ =>
  {| statusCode := 500; cookies := []; body := StatusMessageBody "error" "" |}.

Definition app : App.HttpRequest -> Response :=
  @App.app uriDecoder
          passThrough passThrough passThrough passThrough passThrough
          passThrough passThrough passThrough passThrough passThrough
          passThrough plainError.

End Demo.

(** * Properties *)

(** ** Splitting strings *)

Lemma lacks_append sep a b :
  Js.lacks sep (a ++ b) = Js.lacks sep a && Js.lacks sep b.
Proof.
  induction a as [|c a IH]; simpl; [reflexivity|].
  rewrite IH. now rewrite andb_assoc.
Qed.

Lemma split_lacks sep s : Js.lacks sep s = true -> Js.split sep s = [s].
Proof.
  induction s as [|c s IH]; simpl; [reflexivity|].
  intros Hl. apply andb_prop in Hl as [Hc Hs].
  apply negb_true_iff in Hc. rewrite Hc, (IH Hs). reflexivity.
Qed.

Lemma split_append sep a b :
  Js.lacks sep a = true ->
  Js.split sep (a ++ String sep b) = a :: Js.split sep b.
Proof.
  induction a as [|c a IH]; simpl.
  - intros _. now rewrite Ascii.eqb_refl.
  - intros Hl. apply andb_prop in Hl as [Hc Ha].
    apply negb_true_iff in Hc. rewrite Hc, (IH Ha). reflexivity.
Qed.

Lemma prefix_append p s : String.prefix p (p ++ s) = true.
Proof.
  induction p as [|c p IH]; simpl.
  - now destruct s.
  - destruct (Ascii.ascii_dec c c); [exact IH|congruence].
Qed.

(** ** [filterObject] keeps exactly the allowed fields *)

Lemma Object_keys_elem {V} (obj : gmap string V) k :
  k ∈ Object_keys obj <-> is_Some (obj !! k).
Proof.
  unfold Object_keys. rewrite list_elem_of_fmap. split.
  - intros [[k' v] [-> Hin]]. apply elem_of_map_to_list in Hin. eauto.
  - intros [v Hv]. exists (k, v). split; [reflexivity|].
    now apply elem_of_map_to_list.
Qed.

Lemma assign_lookup {V} (key k : string) (v : V) (o : gmap string V) :
  assign key v o !! k
  = if bool_decide (key = k) && negb (String.eqb k "__proto__")
    then Some v else o !! k.
Proof.
  unfold assign. case_bool_decide as Hk; simpl.
  - subst key. destruct (String.eqb k "__proto__"); simpl; [reflexivity|].
    apply lookup_insert_eq.
  - destruct (String.eqb key "__proto__"); [reflexivity|].
    now apply lookup_insert_ne.
Qed.

Lemma filter_fold_lookup {V} (obj : gmap string V) allowedFields
  (ks : list string) (acc : gmap string V) (k : string) :
  foldl (copyIfAllowed obj allowedFields) acc ks !! k
  = if bool_decide (k ∈ allowedFields) && bool_decide (k ∈ ks)
       && negb (String.eqb k "__proto__")
    then match obj !! k with Some v => Some v | None => acc !! k end
    else acc !! k.
Proof.
  revert acc. induction ks as [|key ks IH]; intros acc; simpl.
  - now rewrite andb_false_r.
  - rewrite IH. clear IH. unfold copyIfAllowed.
    destruct (decide (key = k)) as [->|Hne].
    + rewrite (bool_decide_eq_true_2 (k ∈ k :: ks)) by left.
      rewrite andb_true_r.
      destruct (bool_decide (k ∈ allowedFields)) eqn:Hal; simpl;
        [|reflexivity].
      destruct (obj !! k) eqn:Hk.
      * rewrite assign_lookup.
        rewrite (bool_decide_eq_true_2 (k = k)) by reflexivity.
        destruct (bool_decide (k ∈ ks)), (String.eqb k "__proto__");
          reflexivity.
      * destruct (bool_decide (k ∈ ks)), (String.eqb k "__proto__");
          reflexivity.
    + assert (bool_decide (k ∈ key :: ks) = bool_decide (k ∈ ks)) as ->.
      { apply bool_decide_ext. rewrite elem_of_cons.
        split; [intros [Heq|Hin]; [congruence|exact Hin]|now right]. }
      assert (forall v, assign key v acc !! k = acc !! k) as Hins.
      { intros v. rewrite assign_lookup.
        now rewrite (bool_decide_eq_false_2 (key = k)) by exact Hne. }
      destruct (bool_decide (key ∈ allowedFields)), (obj !! key);
        rewrite ?Hins; reflexivity.
Qed.

(** The own properties of the filtered object. *)
Lemma filterObject_lookup_own {V} (obj : gmap string V) allowedFields k :
  filterObject obj allowedFields !! k
  = if bool_decide (k ∈ allowedFields) && negb (String.eqb k "__proto__")
    then obj !! k else None.
Proof.
  unfold filterObject. rewrite filter_fold_lookup, lookup_empty.
  destruct (bool_decide (k ∈ allowedFields)); simpl; [|reflexivity].
  destruct (bool_decide (k ∈ Object_keys obj)) eqn:Hk; simpl.
  - destruct (String.eqb k "__proto__"); simpl; [reflexivity|].
    now destruct (obj !! k).
  - apply bool_decide_eq_false in Hk. rewrite Object_keys_elem in Hk.
    destruct (obj !! k) eqn:E.
    + exfalso. apply Hk. eauto.
    + now destruct (String.eqb k "__proto__").
Qed.

(** For an allow-list without ["__proto__"], as the one of [updateMe]. *)
Lemma filterObject_lookup {V} (obj : gmap string V) allowedFields k :
  "__proto__" ∉ allowedFields ->
  filterObject obj allowedFields !! k
  = if bool_decide (k ∈ allowedFields) then obj !! k else None.
Proof.
  intros Hplain. rewrite filterObject_lookup_own.
  case_bool_decide as Hin; [|reflexivity].
  destruct (String.eqb k "__proto__") eqn:Hk; [|reflexivity].
  apply String.eqb_eq in Hk. congruence.
Qed.

Lemma profile_fields_plain : "__proto__" ∉ ["name"; "email"; "status"].
Proof.
  intros Hin.
  repeat (apply elem_of_cons in Hin as [Heq|Hin]; [discriminate Heq|]).
  now apply elem_of_nil in Hin.
Qed.

Lemma filterObject_idempotent {V} (obj : gmap string V) allowedFields :
  filterObject (filterObject obj allowedFields) allowedFields
  = filterObject obj allowedFields.
Proof.
  apply map_eq. intros k. rewrite !filterObject_lookup_own.
  now destruct (bool_decide (k ∈ allowedFields) && negb (String.eqb k "__proto__")).
Qed.

(** ** Evaluating handlers *)

Ltac run_async :=
  unfold catchAsync, mbind, async_bind, mret, async_ret, throw, call,
    getUsers, putUsers, tryCatch; simpl.

(** ** Profile update *)

Lemma updateMe_run (req : Request) (w : World) (ru d : User.Doc) :
  reqUser req = Some ru ->
  List.find (fun x => String.eqb (User._id x) (User._id ru)) (users w) = Some d ->
  let filteredData := filterObject (reqBody req) ["name"; "email"; "status"] in
  let d' := User.applyUpdate filteredData d in
  updateMe req w
  = (Send {| statusCode := 200; cookies := [];
             body := UserBody "success" (Some (User.hidePassword d')) |},
     {| users := UserModel.replaceDoc (User._id ru) d' (users w);
        calls := calls w
                 ++ [CallFindByIdAndUpdate (User._id ru) filteredData] |}).
Proof.
  intros Hru Hfind filteredData d'.
  unfold updateMe, updateMe_fn, UserModel.findByIdAndUpdate, catchAsync.
  cbv beta. rewrite Hru. run_async. rewrite Hfind. reflexivity.
Qed.

(** C5.  Profile update hands only the [name], [email] and [status] fields
    of the request body to the data layer: the update object holds exactly
    those fields of the body, the stored document changes in those fields
    alone (role, password and every other field keep their values), and the
    store ends as it would for the body stripped of all other fields. *)
Theorem updateMe_applies_only_allowed_fields
  (req : Request) (w : World) (ru d : User.Doc) :
  reqUser req = Some ru ->
  List.find (fun x => String.eqb (User._id x) (User._id ru)) (users w) = Some d ->
  let allowed := ["name"; "email"; "status"] in
  let filteredData := filterObject (reqBody req) allowed in
  (forall k, filteredData !! k
             = if bool_decide (k ∈ allowed) then reqBody req !! k else None)
  /\ (exists d',
         updateMe req w
         = (Send {| statusCode := 200; cookies := [];
                    body := UserBody "success" (Some (User.hidePassword d')) |},
            {| users := UserModel.replaceDoc (User._id ru) d' (users w);
               calls := calls w
                        ++ [CallFindByIdAndUpdate (User._id ru) filteredData] |})
         /\ User.name d' = default (User.name d) (reqBody req !! "name")
         /\ User.email d' = default (User.email d) (reqBody req !! "email")
         /\ User.status d' = default (User.status d) (reqBody req !! "status")
         /\ User.role d' = User.role d
         /\ User.password d' = User.password d
         /\ User.passwordConfirm d' = User.passwordConfirm d
         /\ User.passwordChangedAt d' = User.passwordChangedAt d
         /\ User._id d' = User._id d)
  /\ users (snd (updateMe (set_reqBody filteredData req) w))
     = users (snd (updateMe req w)).
Proof.
  intros Hru Hfind allowed filteredData.
  split; [intros k; apply filterObject_lookup, profile_fields_plain|].
  split.
  - exists (User.applyUpdate filteredData d).
    split; [exact (updateMe_run req w ru d Hru Hfind)|].
    unfold User.applyUpdate, filteredData; simpl.
    rewrite !filterObject_lookup by apply profile_fields_plain.
    repeat split; reflexivity.
  - rewrite (updateMe_run req w ru d Hru Hfind).
    rewrite (updateMe_run (set_reqBody filteredData req) w ru d Hru Hfind).
    simpl. unfold filteredData, allowed.
    now rewrite filterObject_idempotent.
Qed.

Lemma updateMe_applies_only_allowed_fields_witness :
  let req := Demo.request None None [("name", "X"); ("role", "admin")]
                          (Some Demo.alice) in
  users (snd (updateMe req Demo.world))
  = [ {| User._id := "5f1a"; User.name := "X";
         User.email := "alice@example.com"; User.role := "user";
         User.status := "active";
         User.password := Some "hash:correct horse";
         User.passwordConfirm := None;
         User.passwordChangedAt := None |} ]
  /\ exists d', User.name d' = "X" /\ User.role d' = "user"
                /\ fst (updateMe req Demo.world)
                   = Send {| statusCode := 200; cookies := [];
                             body := UserBody "success"
                                       (Some (User.hidePassword d')) |}.
Proof.
  intros req. split; [vm_compute; reflexivity|].
  destruct (updateMe_applies_only_allowed_fields req Demo.world
              Demo.alice Demo.alice eq_refl eq_refl)
    as (_ & (d' & Hrun & Hname & _ & _ & Hrole & _) & _).
  exists d'. split; [exact Hname|]. split; [exact Hrole|].
  rewrite Hrun. reflexivity.
Defined.

(** ** Tokens: signing and verifying *)

Lemma string_append_assoc (a b c : string) : (a ++ b) ++ c = a ++ (b ++ c).
Proof.
  induction a as [|x a IH]; [reflexivity|].
  change (String x ((a ++ b) ++ c) = String x (a ++ b ++ c)). now f_equal.
Qed.

Section TokenRoundTrip.
Context {P : JwtPrimitives} {Ok : JwtPrimitivesOk P}.

Lemma sign_segments userId secret expiresIn now :
  let payload := {| id := userId; iat := now / 1000;
                    exp := now / 1000 + expiresIn |} in
  jwt.sign userId secret expiresIn now
  = encodedHeader
    ++ String "." (encodePayload payload
                   ++ String "." (hmac secret (encodedHeader ++ "."
                                               ++ encodePayload payload))).
Proof.
  intros payload. subst payload. unfold jwt.sign. cbv zeta.
  rewrite string_append_assoc. reflexivity.
Qed.

Lemma sign_lacks_space userId secret expiresIn now :
  Js.lacks " " (jwt.sign userId secret expiresIn now) = true.
Proof.
  rewrite sign_segments. cbv zeta.
  rewrite lacks_append. simpl. rewrite lacks_append. simpl.
  rewrite header_lacks, payload_lacks, hmac_lacks by now right.
  reflexivity.
Qed.

Lemma sign_truthy userId secret expiresIn now :
  Js.truthy (Some (jwt.sign userId secret expiresIn now)) = true.
Proof.
  rewrite sign_segments. cbv zeta.
  destruct encodedHeader; reflexivity.
Qed.

Lemma verify_sign_clock userId secret expiresIn issuedAt now :
  jwt.verify (jwt.sign userId secret expiresIn issuedAt) secret now
  = if issuedAt / 1000 + expiresIn <=? now / 1000
    then inl TokenExpiredError
    else inr {| id := userId; iat := issuedAt / 1000;
                exp := issuedAt / 1000 + expiresIn |}.
Proof.
  unfold jwt.verify. rewrite sign_segments. cbv zeta.
  rewrite split_append by (apply header_lacks; now left).
  rewrite split_append by (apply payload_lacks; now left).
  rewrite split_lacks by (apply hmac_lacks; now left).
  rewrite decode_encode, String.eqb_refl. simpl negb. cbv iota.
  change ("." ++ ?x) with (String "." x).
  rewrite String.eqb_refl. reflexivity.
Qed.

Lemma verify_sign userId secret expiresIn issuedAt now :
  now / 1000 < issuedAt / 1000 + expiresIn ->
  jwt.verify (jwt.sign userId secret expiresIn issuedAt) secret now
  = inr {| id := userId; iat := issuedAt / 1000;
           exp := issuedAt / 1000 + expiresIn |}.
Proof.
  intros Hfresh. rewrite verify_sign_clock.
  apply Z.leb_gt in Hfresh. now rewrite Hfresh.
Qed.

End TokenRoundTrip.

(** ** The authentication gate *)

Lemma requestToken_bearer (req : Request) (token : string) :
  authorization req = Some ("Bearer " ++ token) ->
  Js.lacks " " token = true ->
  requestToken req = Some token.
Proof.
  intros Hh Hl. unfold requestToken. rewrite Hh.
  change ("Bearer " ++ token) with ("Bearer" ++ String " " token).
  unfold Js.text, Js.startsWith. simpl default.
  rewrite prefix_append, split_append by reflexivity.
  rewrite split_lacks by exact Hl. reflexivity.
Qed.

Lemma requestToken_cookie (req : Request) (token : string) :
  authorization req = None ->
  cookies_jwt req = Some token ->
  Js.truthy (Some token) = true ->
  requestToken req = Some token.
Proof.
  intros Hh Hc Ht. unfold requestToken. rewrite Hh, Hc.
  destruct token; [discriminate Ht|reflexivity].
Qed.

Lemma startsWith_truthy p c h :
  Js.startsWith (String c p) h = true -> Js.truthy (Some h) = true.
Proof. destruct h; [discriminate|reflexivity]. Qed.

(** [protect] computes what the gate's five transitions compute, on the
    token [requestToken] reads. *)
Lemma protect_run `{P : JwtPrimitives} env now req w :
  protect env now req w
  = (Gate.outcome req (fst (Gate.run requestToken env now req w)),
     snd (Gate.run requestToken env now req w)).
Proof.
  unfold protect, catchAsync, protect_fn, Gate.run, Gate.step.
  destruct (requestToken req) as [[|c token]|]; try reflexivity.
  unfold jwt_verify_async. run_async.
  destruct (jwt.verify (String c token) (JWT_SECRET env) now)
    as [err|decoded]; try reflexivity.
  simpl.
  destruct (List.find _ (users w)) as [user|]; try reflexivity.
  simpl.
  destruct (UserModel.passwordChangedAfter _ _); reflexivity.
Qed.

Lemma gate_run_world `{P : JwtPrimitives} env now req w :
  snd (Gate.run requestToken env now req w)
  = {| users := users w; calls := calls w ++ protectCalls env now req w |}.
Proof.
  unfold Gate.run, protectCalls, Gate.step.
  destruct (requestToken req) as [[|c token]|];
    try (simpl; rewrite app_nil_r; now destruct w).
  destruct (jwt.verify (String c token) (JWT_SECRET env) now)
    as [err|decoded]; try reflexivity.
  simpl.
  destruct (List.find _ (users w)) as [user|]; simpl.
  - destruct (UserModel.passwordChangedAfter _ _); unfold Gate.record; simpl;
      now rewrite <- ?app_assoc.
  - unfold Gate.record; simpl. now rewrite <- ?app_assoc.
Qed.

Lemma gate_run_terminal `{P : JwtPrimitives} extract env now req w :
  Gate.terminal (fst (Gate.run extract env now req w)) = true.
Proof.
  unfold Gate.run, Gate.step.
  destruct (extract req) as [[|c token]|]; try reflexivity.
  destruct (jwt.verify (String c token) (JWT_SECRET env) now)
    as [err|decoded]; try reflexivity.
  simpl.
  destruct (List.find _ (users w)) as [user|]; try reflexivity.
  simpl.
  destruct (UserModel.passwordChangedAfter _ _); reflexivity.
Qed.

(** The gate reads the request only through the extracted token. *)
Lemma gate_run_extract `{P : JwtPrimitives} extract env now req req' w :
  extract req' = extract req ->
  Gate.run extract env now req' w = Gate.run extract env now req w.
Proof.
  intros He. unfold Gate.run, Gate.step. now rewrite He.
Qed.

(** ** The concrete collaborators meet their contract *)

Module DemoFacts.
Import Demo.

Lemma hexDigit_value k : (k < 16)%nat -> hexValue (hexDigit k) = Some k.
Proof.
  intros Hk. do 16 (destruct k as [|k]; [reflexivity|]). lia.
Qed.

Lemma nibbles_bounded c :
  (nat_of_ascii c / 16 < 16)%nat /\ (nat_of_ascii c mod 16 < 16)%nat.
Proof.
  pose proof (nat_ascii_bounded c) as Hb. split.
  - apply Nat.Div0.div_lt_upper_bound. lia.
  - apply Nat.mod_upper_bound. lia.
Qed.

Lemma hexDigit_differs sep k :
  hexValue sep = None -> (k < 16)%nat -> Ascii.eqb (hexDigit k) sep = false.
Proof.
  intros Hsep Hk. apply Ascii.eqb_neq. intros Heq.
  rewrite <- Heq, hexDigit_value in Hsep by exact Hk. discriminate.
Qed.

Lemma hexEncode_lacks sep s :
  hexValue sep = None -> Js.lacks sep (hexEncode s) = true.
Proof.
  intros Hsep. induction s as [|c s IH]; [reflexivity|].
  destruct (nibbles_bounded c) as [Hhi Hlo].
  cbn [hexEncode Js.lacks].
  now rewrite !hexDigit_differs, IH.
Qed.

Lemma hexDecode_encode s : hexDecode (hexEncode s) = Some s.
Proof.
  induction s as [|c s IH]; [reflexivity|].
  destruct (nibbles_bounded c) as [Hhi Hlo].
  cbn [hexEncode hexDecode].
  rewrite !hexDigit_value, IH by assumption.
  rewrite <- Nat.div_mod_eq, ascii_nat_embedding. reflexivity.
Qed.

Lemma parseDecimal_decimal z : parseDecimal (decimal z) = Some z.
Proof.
  unfold parseDecimal, decimal.
  rewrite NilEmpty.isi. simpl. now rewrite DecimalZ.of_to.
Qed.

Lemma encode_segments p :
  encode p
  = hexEncode (id p)
    ++ String "_" (hexEncode (decimal (iat p))
                   ++ String "_" (hexEncode (decimal (exp p)))).
Proof. reflexivity. Qed.

Lemma demo_decode_encode p : decode (encode p) = Some p.
Proof.
  unfold decode. rewrite encode_segments.
  rewrite !split_append by (now apply hexEncode_lacks).
  rewrite split_lacks by (now apply hexEncode_lacks).
  rewrite !hexDecode_encode. simpl.
  rewrite !parseDecimal_decimal. now destruct p.
Qed.

Lemma encode_lacks sep p :
  hexValue sep = None -> Ascii.eqb "_" sep = false ->
  Js.lacks sep (encode p) = true.
Proof.
  intros Hsep Hne. rewrite encode_segments.
  rewrite !lacks_append. cbn [Js.lacks]. rewrite !lacks_append.
  cbn [Js.lacks]. now rewrite Hne, !hexEncode_lacks.
Qed.

Lemma primitives_ok : JwtPrimitivesOk primitives.
Proof.
  split.
  - exact demo_decode_encode.
  - intros c [-> | ->]; reflexivity.
  - intros c p [-> | ->]; now apply encode_lacks.
  - intros c k m [-> | ->]; now apply hexEncode_lacks.
Qed.

End DemoFacts.

(** ** Claims about the authentication gate *)

(** C1, as amended.  [protect] runs the gate of the specification, in its order:
    the token is the second space-separated piece of the [Authorization]
    header when that header starts with [Bearer] (the cookie is then not
    read), else the [jwt] cookie; without a non-empty token the request is
    rejected with 401 "not logged in"; otherwise the token is verified, then
    the user is looked up by the decoded identifier (401 when absent), then
    the password-change time is compared with the issue time (401 when
    later), and only then is the user attached and control passed on.  The
    final state is [Authorized] or [Rejected], the store is untouched, and
    the calls made stop at the step that rejected. *)
Theorem protect_runs_the_gate_in_order `{P : JwtPrimitives}
  (env : Env) (now : Z) (req : Request) (w : World) :
  let cookieToken := match cookies_jwt req with
                     | Some (String c rest) => Some (String c rest)
                     | _ => None
                     end in
  let final := Gate.run requestToken env now req w in
  requestToken req
  = match authorization req with
    | Some h => if Js.startsWith "Bearer" h
                then Js.split " " h !! 1%nat
                else cookieToken
    | None => cookieToken
    end
  /\ protect env now req w = (Gate.outcome req (fst final), snd final)
  /\ Gate.terminal (fst final) = true
  /\ snd final = {| users := users w;
                    calls := calls w ++ protectCalls env now req w |}.
Proof.
  intros cookieToken final. repeat split.
  - unfold requestToken, cookieToken.
    destruct (authorization req) as [[|c h]|], (cookies_jwt req) as [[|c' t]|];
      simpl; try reflexivity;
      destruct (Js.startsWith "Bearer" (String c h)); reflexivity.
  - apply protect_run.
  - apply gate_run_terminal.
  - apply gate_run_world.
Qed.

(** C1, the claim as stated fails: with the bare header [Bearer] and a valid
    token in the [jwt] cookie the code rejects the request as not logged in,
    although a token is present in the cookie; the gate that falls back to
    the cookie whenever the header yields no token authorizes it. *)
Lemma bare_bearer_header_hides_cookie :
  cookies_jwt Demo.bareBearerRequest = Some Demo.aliceToken
  /\ fst (@protect Demo.primitives Demo.production 6000
            Demo.bareBearerRequest Demo.world)
     = NextError
         (ErrorHandler
            "You are not logged in! Please log in to access this route." 401)
  /\ Gate.outcome Demo.bareBearerRequest
       (fst (@Gate.run Demo.primitives Gate.headerElseCookie Demo.production
               6000 Demo.bareBearerRequest Demo.world))
     = Next (set_reqUser (User.hidePassword Demo.alice) Demo.bareBearerRequest).
Proof. repeat split; vm_compute; reflexivity. Qed.

(** C10.  When the [Authorization] header starts with [Bearer], the token is
    the header's second space-separated piece whatever the [jwt] cookie
    holds: replacing the cookie changes neither the token read nor the
    gate's final state and calls; and the bare header [Bearer] is rejected
    with 401 "not logged in" without any call, whatever the cookie.  The
    same holds of [protect] itself: with another cookie it makes the same
    calls and reaches the same outcome, the request it passes on differing
    in the cookie only; a header without a token piece is rejected with 401
    "not logged in" without any call; and a header token that fails
    verification is rejected with the verification error after the one
    verification call, whatever the cookie holds. *)
Theorem bearer_header_shadows_cookie `{P : JwtPrimitives}
  (env : Env) (now : Z) (req : Request) (w : World) (h : string) :
  authorization req = Some h ->
  Js.startsWith "Bearer" h = true ->
  requestToken req = Js.split " " h !! 1%nat
  /\ (forall cookie,
         requestToken (set_cookies_jwt cookie req) = requestToken req
         /\ Gate.run requestToken env now (set_cookies_jwt cookie req) w
            = Gate.run requestToken env now req w)
  /\ (h = "Bearer" ->
      forall cookie,
        protect env now (set_cookies_jwt cookie req) w
        = (NextError
             (ErrorHandler
                "You are not logged in! Please log in to access this route."
                401), w))
  /\ (forall cookie,
         protect env now (set_cookies_jwt cookie req) w
         = (withCookie cookie (fst (protect env now req w)),
            snd (protect env now req w)))
  /\ (Js.truthy (Js.split " " h !! 1%nat) = false ->
      forall cookie,
        protect env now (set_cookies_jwt cookie req) w
        = (NextError
             (ErrorHandler
                "You are not logged in! Please log in to access this route."
                401), w))
  /\ (forall token err,
         Js.split " " h !! 1%nat = Some token ->
         Js.truthy (Some token) = true ->
         jwt.verify token (JWT_SECRET env) now = inl err ->
         forall cookie,
           protect env now (set_cookies_jwt cookie req) w
           = (NextError err,
              {| users := users w;
                 calls := (calls w ++ [CallJwtVerify token])%list |})).
Proof.
  intros Hh Hb.
  assert (forall r, authorization r = Some h ->
                    requestToken r = Js.split " " h !! 1%nat) as Hread.
  { intros r Hr. unfold requestToken. rewrite Hr.
    rewrite (startsWith_truthy _ _ _ Hb). simpl. now rewrite Hb. }
  split; [now apply Hread|]. split; [|split; [|split; [|split]]].
  - intros cookie.
    assert (requestToken (set_cookies_jwt cookie req) = requestToken req) as He.
    { now rewrite !Hread. }
    split; [exact He|]. now apply gate_run_extract.
  - intros -> cookie.
    unfold protect, catchAsync, protect_fn.
    rewrite (Hread (set_cookies_jwt cookie req) Hh). reflexivity.
  - intros cookie. rewrite !protect_run.
    rewrite (gate_run_extract requestToken env now req
               (set_cookies_jwt cookie req) w)
      by now rewrite !Hread.
    cbn [fst snd]. f_equal.
    now destruct (fst (Gate.run requestToken env now req w)).
  - intros Hnone cookie.
    unfold protect, catchAsync, protect_fn.
    rewrite (Hread (set_cookies_jwt cookie req) Hh), Hnone. reflexivity.
  - intros token err Htoken Htruthy Hverify cookie.
    unfold protect, catchAsync, protect_fn.
    rewrite (Hread (set_cookies_jwt cookie req) Hh), Htoken, Htruthy.
    unfold jwt_verify_async. run_async.
    change (Js.text (Some token)) with token. now rewrite Hverify.
Qed.

Lemma bearer_header_shadows_cookie_witness :
  Js.startsWith "Bearer" "Bearer" = true
  /\ @protect Demo.primitives Demo.production 6000
       (set_cookies_jwt (Some Demo.aliceToken)
          (Demo.request (Some "Bearer") None [] None)) Demo.world
     = (NextError
          (ErrorHandler
             "You are not logged in! Please log in to access this route." 401),
        Demo.world)
  /\ @protect Demo.primitives Demo.production 6000
       (set_cookies_jwt (Some Demo.aliceToken)
          (Demo.request (Some "Bearer garbage") None [] None)) Demo.world
     = (NextError (JsonWebTokenError "jwt malformed"),
        {| users := users Demo.world;
           calls := [CallJwtVerify "garbage"] |}).
Proof.
  split; [reflexivity|]. split.
  - exact (proj1 (proj2 (proj2 (@bearer_header_shadows_cookie Demo.primitives
                           Demo.production 6000
                           (Demo.request (Some "Bearer") None [] None)
                           Demo.world "Bearer" eq_refl eq_refl)))
             eq_refl (Some Demo.aliceToken)).
  - exact (proj2 (proj2 (proj2 (proj2 (proj2
             (@bearer_header_shadows_cookie Demo.primitives
                Demo.production 6000
                (Demo.request (Some "Bearer garbage") None [] None)
                Demo.world "Bearer garbage" eq_refl eq_refl)))))
             "garbage" (JsonWebTokenError "jwt malformed")
             eq_refl eq_refl eq_refl (Some Demo.aliceToken)).
Defined.

(** ** Token round trip *)

Lemma requestToken_presented `{P : JwtPrimitives} {Ok : JwtPrimitivesOk P}
  (env : Env) (issuedAt : Z) (req : Request) (userId : string) :
  let token := createSendToken env issuedAt userId in
  authorization req = Some ("Bearer " ++ token)
  \/ (authorization req = None /\ cookies_jwt req = Some token) ->
  requestToken req = Some token.
Proof.
  intros token [Hh|[Hh Hc]].
  - apply requestToken_bearer; [exact Hh|apply sign_lacks_space].
  - apply requestToken_cookie; [exact Hh|exact Hc|apply sign_truthy].
Qed.

Lemma gate_accepts_issued_token `{P : JwtPrimitives} {Ok : JwtPrimitivesOk P}
  (env : Env) (issuedAt now : Z) (req : Request) (w : World)
  (userId : string) (u : User.Doc) :
  let token := createSendToken env issuedAt userId in
  authorization req = Some ("Bearer " ++ token)
  \/ (authorization req = None /\ cookies_jwt req = Some token) ->
  now / 1000 < issuedAt / 1000 + JWT_EXPIRES_IN env ->
  List.find (fun d => String.eqb (User._id d) userId) (users w) = Some u ->
  UserModel.passwordChangedAfter u (issuedAt / 1000) = false ->
  jwt.verify token (JWT_SECRET env) now
  = inr {| id := userId; iat := issuedAt / 1000;
           exp := issuedAt / 1000 + JWT_EXPIRES_IN env |}
  /\ fst (protect env now req w) = Next (set_reqUser (User.hidePassword u) req).
Proof.
  intros token Hpresented Hfresh Hfind Hunchanged.
  pose proof (verify_sign userId (JWT_SECRET env) (JWT_EXPIRES_IN env)
                issuedAt now Hfresh) as Hverify.
  fold (createSendToken env issuedAt userId) in Hverify. fold token in Hverify.
  pose proof (requestToken_presented env issuedAt req userId Hpresented)
    as Hread.
  fold token in Hread.
  assert (Js.truthy (Some token) = true) as Htruthy by apply sign_truthy.
  split; [exact Hverify|].
  rewrite protect_run. unfold Gate.run, Gate.step. rewrite Hread.
  destruct token as [|c rest]; [discriminate Htruthy|].
  rewrite Hverify. simpl. rewrite Hfind. simpl.
  unfold UserModel.passwordChangedAfter in *. simpl.
  now rewrite Hunchanged.
Qed.

(** C2.  A token issued for a user by [createSendToken], presented in the
    [Authorization] header or in the [jwt] cookie while the clock in whole
    seconds is before the token's expiry and with no password change after
    its issue, verifies under the shared secret, decodes to the identifier
    it was issued for, and the gate attaches that user's record and passes
    control on. *)
Theorem issued_token_round_trip `{P : JwtPrimitives} {Ok : JwtPrimitivesOk P}
  (env : Env) (issuedAt now : Z) (req : Request) (w : World)
  (userId : string) (u : User.Doc) :
  let token := createSendToken env issuedAt userId in
  authorization req = Some ("Bearer " ++ token)
  \/ (authorization req = None /\ cookies_jwt req = Some token) ->
  now / 1000 < issuedAt / 1000 + JWT_EXPIRES_IN env ->
  List.find (fun d => String.eqb (User._id d) userId) (users w) = Some u ->
  UserModel.passwordChangedAfter u (issuedAt / 1000) = false ->
  jwt.verify token (JWT_SECRET env) now
  = inr {| id := userId; iat := issuedAt / 1000;
           exp := issuedAt / 1000 + JWT_EXPIRES_IN env |}
  /\ fst (protect env now req w) = Next (set_reqUser (User.hidePassword u) req)
  /\ User._id u = userId.
Proof.
  intros token Hpresented Hfresh Hfind Hunchanged.
  destruct (gate_accepts_issued_token env issuedAt now req w userId u
              Hpresented Hfresh Hfind Hunchanged) as [Hverify Hgate].
  repeat split; [exact Hverify|exact Hgate|].
  apply List.find_some in Hfind as [_ Heq]. now apply String.eqb_eq.
Qed.

Lemma issued_token_round_trip_witness :
  fst (@protect Demo.primitives Demo.production 6000 Demo.bearerRequest
         Demo.world)
  = Next (set_reqUser (User.hidePassword Demo.alice) Demo.bearerRequest).
Proof.
  refine (proj1 (proj2 (@issued_token_round_trip Demo.primitives
                          DemoFacts.primitives_ok Demo.production 5000 6000
                          Demo.bearerRequest Demo.world "5f1a" Demo.alice
                          _ _ _ _))).
  - left. reflexivity.
  - vm_compute. reflexivity.
  - reflexivity.
  - reflexivity.
Defined.

(** ** The session cookie *)

(** C3, as amended.  The response [sendToken] builds carries the status
    code it was given, the body [{status, token, user}] and one cookie,
    [jwt], holding the issued token, with [httpOnly] set, path ["/"], an
    expiry the configured number of days after the clock reading, [secure]
    off in development and on otherwise, and [sameSite] ["Strict"] in
    development and ["None"] otherwise. *)
Theorem sendToken_cookie_attributes `{P : JwtPrimitives}
  (env : Env) (now : Z) (user : User.Doc) (code : Z) :
  let res := sendToken env now user code in
  let token := createSendToken env now (User._id user) in
  statusCode res = code
  /\ body res = TokenBody "success" token user
  /\ (exists options,
         cookies res = [ {| cookieName := "jwt"; cookieValue := token;
                            cookieOptions := options |} ]
         /\ httpOnly options = true
         /\ path options = "/"
         /\ expires options = now + COOKIE_EXPIRES_IN env * 86400000
         /\ secure options = negb (isDevelopment env)
         /\ sameSite options = if isDevelopment env then "Strict" else "None")
  /\ (isDevelopment env = true <-> NODE_ENV env = Some "development").
Proof.
  intros res token. repeat split.
  - eexists. split; [reflexivity|]. simpl. unfold cookieSecure.
    repeat split; try reflexivity; lia.
  - unfold isDevelopment. apply bool_decide_eq_true_1.
  - unfold isDevelopment. apply bool_decide_eq_true_2.
Qed.

(** C3, the claim as stated fails for [sameSite]: outside development the
    cookie is sent with [sameSite] ["None"], the relaxed setting, and in
    development with ["Strict"]. *)
Lemma sameSite_is_relaxed_in_production :
  (isDevelopment Demo.production = false
   /\ sameSite <$> firstCookieOptions
                     (@sendToken Demo.primitives Demo.production 5000
                        Demo.alice 200)
      = Some "None")
  /\ (isDevelopment Demo.development = true
      /\ sameSite <$> firstCookieOptions
                        (@sendToken Demo.primitives Demo.development 5000
                           Demo.alice 200)
         = Some "Strict").
Proof. repeat split; vm_compute; reflexivity. Qed.

(** ** Log-in *)

Lemma logIn_run `{P : JwtPrimitives} `{H : PasswordHash}
  env now req w (email password : string) :
  reqBody req !! "email" = Some email ->
  reqBody req !! "password" = Some password ->
  email <> "" -> password <> "" ->
  logIn env now req w
  = match List.find (fun d => String.eqb (User.email d) email) (users w) with
    | None =>
        (NextError (ErrorHandler "Invalid email or password" 401),
         {| users := users w; calls := calls w ++ [CallFindOne email] |})
    | Some u =>
        let w' := {| users := users w;
                     calls := calls w ++ [CallFindOne email;
                                          CallComparePasswords (User._id u)] |}
        in
        match User.password u with
        | None => (NextError (JsError "data and hash arguments required"), w')
        | Some stored =>
            if comparePasswords password stored
            then (Send (sendToken env now u 200), w')
            else (NextError (ErrorHandler "Invalid email or password" 401), w')
        end
    end.
Proof.
  intros He Hp Hne Hnp.
  unfold logIn, catchAsync, logIn_fn. rewrite He, Hp.
  destruct email as [|a email]; [congruence|].
  destruct password as [|b password]; [congruence|].
  unfold UserModel.findOne, UserModel.comparePasswords_async. run_async.
  destruct (List.find _ (users w)) as [u|]; [|reflexivity].
  simpl. rewrite <- app_assoc. simpl.
  destruct (User.password u) as [stored|]; [|reflexivity].
  destruct (comparePasswords _ stored); reflexivity.
Qed.

(** C4.  A log-in for an email that no user has and a log-in for an existing
    email with a password that fails the hash comparison are both answered
    with the error "Invalid email or password", status 401: the two answers
    are equal, and neither run changes the store. *)
Theorem logIn_failures_are_indistinguishable
  `{P : JwtPrimitives} `{H : PasswordHash} (env : Env) (now : Z)
  (req1 req2 : Request) (w1 w2 : World)
  (email1 password1 email2 password2 stored : string) (u : User.Doc) :
  reqBody req1 !! "email" = Some email1 ->
  reqBody req1 !! "password" = Some password1 ->
  reqBody req2 !! "email" = Some email2 ->
  reqBody req2 !! "password" = Some password2 ->
  email1 <> "" -> password1 <> "" -> email2 <> "" -> password2 <> "" ->
  List.find (fun d => String.eqb (User.email d) email1) (users w1) = None ->
  List.find (fun d => String.eqb (User.email d) email2) (users w2) = Some u ->
  User.password u = Some stored ->
  comparePasswords password2 stored = false ->
  fst (logIn env now req1 w1)
  = NextError (ErrorHandler "Invalid email or password" 401)
  /\ fst (logIn env now req2 w2)
     = NextError (ErrorHandler "Invalid email or password" 401)
  /\ fst (logIn env now req1 w1) = fst (logIn env now req2 w2)
  /\ users (snd (logIn env now req1 w1)) = users w1
  /\ users (snd (logIn env now req2 w2)) = users w2.
Proof.
  intros He1 Hp1 He2 Hp2 Hn1 Hq1 Hn2 Hq2 Hnone Hsome Hstored Hfail.
  rewrite (logIn_run env now req1 w1 email1 password1) by assumption.
  rewrite (logIn_run env now req2 w2 email2 password2) by assumption.
  rewrite Hnone, Hsome. cbv zeta. rewrite Hstored, Hfail.
  repeat split.
Qed.

Lemma logIn_failures_are_indistinguishable_witness :
  fst (@logIn Demo.primitives Demo.passwordHash Demo.production 6000
         Demo.unknownEmailLogIn Demo.world)
  = fst (@logIn Demo.primitives Demo.passwordHash Demo.production 6000
           Demo.wrongPasswordLogIn Demo.world).
Proof.
  refine (proj1 (proj2 (proj2
            (@logIn_failures_are_indistinguishable
               Demo.primitives Demo.passwordHash Demo.production 6000
               Demo.unknownEmailLogIn Demo.wrongPasswordLogIn
               Demo.world Demo.world
               "bob@example.com" "correct horse"
               "alice@example.com" "battery staple"
               "hash:correct horse" Demo.alice
               _ _ _ _ _ _ _ _ _ _ _ _))));
    solve [reflexivity | discriminate].
Defined.

(** ** Password update *)

Lemma find_replaceDoc (userId : string) (d u : User.Doc) (us : list User.Doc) :
  List.find (fun x => String.eqb (User._id x) userId) us = Some u ->
  User._id d = userId ->
  List.find (fun x => String.eqb (User._id x) userId)
            (UserModel.replaceDoc userId d us) = Some d.
Proof.
  intros Hfind Hid. induction us as [|x us IH]; [discriminate|].
  simpl in *. destruct (String.eqb (User._id x) userId) eqn:Hx.
  - now rewrite Hid, String.eqb_refl.
  - rewrite Hx. now apply IH.
Qed.

Lemma updateMyPassword_run `{P : JwtPrimitives} `{H : PasswordHash}
  env now req w (ru u : User.Doc) (stored : string) :
  reqUser req = Some ru ->
  List.find (fun d => String.eqb (User._id d) (User._id ru)) (users w) = Some u ->
  User.password u = Some stored ->
  updateMyPassword env now req w
  = if Js.truthy (reqBody req !! "password")
    then
      if comparePasswords (Js.text (reqBody req !! "password")) stored
      then
        let made := [CallFindById (User._id ru);
                     CallComparePasswords (User._id u);
                     CallSave (User._id u)] in
        match reqBody req !! "newPassword" with
        | None => (NextError ValidationError,
                   {| users := users w; calls := calls w ++ made |})
        | Some newPassword =>
            (Send (sendToken env now (UserModel.savedDoc now newPassword u) 200),
             {| users := UserModel.replaceDoc (User._id u)
                           (UserModel.savedDoc now newPassword u) (users w);
                calls := calls w ++ made |})
        end
      else (NextError (ErrorHandler "Current password is incorrect" 400),
            {| users := users w;
               calls := calls w ++ [CallFindById (User._id ru);
                                    CallComparePasswords (User._id u)] |})
    else (NextError (ErrorHandler "Current password is incorrect" 400),
          {| users := users w;
             calls := calls w ++ [CallFindById (User._id ru)] |}).
Proof.
  intros Hru Hfind Hstored.
  unfold updateMyPassword, catchAsync, updateMyPassword_fn. rewrite Hru.
  unfold UserModel.findById, UserModel.comparePasswords_async, UserModel.save.
  run_async. rewrite Hfind. simpl.
  destruct (Js.truthy (reqBody req !! "password")); [|reflexivity].
  simpl. rewrite Hstored.
  destruct (comparePasswords _ stored); simpl;
    [|now rewrite <- app_assoc].
  destruct (reqBody req !! "newPassword") as [newPassword|]; simpl;
    now rewrite <- !app_assoc.
Qed.




(** ** The password hash in responses *)

(** C9.  A successful log-in and a successful password update both answer
    with the fetched user record as it is: the [user] of the response body
    carries the password field, which holds the hash stored for that user
    (after a password update, the hash just stored). *)
Theorem success_responses_carry_password_hash
  `{P : JwtPrimitives} `{H : PasswordHash} (env : Env) (now : Z)
  (reqL reqP : Request) (wL wP : World)
  (email password stored : string) (uL : User.Doc)
  (ru uP : User.Doc) (storedP newPassword : string) :
  reqBody reqL !! "email" = Some email ->
  reqBody reqL !! "password" = Some password ->
  email <> "" -> password <> "" ->
  List.find (fun d => String.eqb (User.email d) email) (users wL) = Some uL ->
  User.password uL = Some stored ->
  comparePasswords password stored = true ->
  reqUser reqP = Some ru ->
  List.find (fun d => String.eqb (User._id d) (User._id ru)) (users wP)
  = Some uP ->
  User.password uP = Some storedP ->
  Js.truthy (reqBody reqP !! "password") = true ->
  comparePasswords (Js.text (reqBody reqP !! "password")) storedP = true ->
  reqBody reqP !! "newPassword" = Some newPassword ->
  (exists res,
      fst (logIn env now reqL wL) = Send res
      /\ statusCode res = 200
      /\ body res = TokenBody "success" (createSendToken env now (User._id uL)) uL
      /\ User.password uL = Some stored)
  /\ (exists res saved,
         fst (updateMyPassword env now reqP wP) = Send res
         /\ statusCode res = 200
         /\ body res
            = TokenBody "success" (createSendToken env now (User._id uP)) saved
         /\ User.password saved = Some (hashPassword newPassword)
         /\ List.find (fun d => String.eqb (User._id d) (User._id ru))
                      (users (snd (updateMyPassword env now reqP wP)))
            = Some saved).
Proof.
  intros He Hp Hne Hnp HfindL HstoredL HmatchL
         Hru HfindP HstoredP Htruthy HmatchP Hnew.
  split.
  - exists (sendToken env now uL 200).
    rewrite (logIn_run env now reqL wL email password) by assumption.
    rewrite HfindL. cbv zeta. rewrite HstoredL, HmatchL.
    repeat split; assumption.
  - exists (sendToken env now (UserModel.savedDoc now newPassword uP) 200),
           (UserModel.savedDoc now newPassword uP).
    rewrite (updateMyPassword_run env now reqP wP ru uP storedP)
      by assumption.
    rewrite Htruthy, HmatchP, Hnew. cbv zeta.
    repeat split. simpl.
    assert (User._id uP = User._id ru) as Hid.
    { apply List.find_some in HfindP as [_ Heq]. now apply String.eqb_eq. }
    rewrite Hid.
    apply (find_replaceDoc (User._id ru) _ uP); [exact HfindP|exact Hid].
Qed.

Lemma success_responses_carry_password_hash_witness :
  (exists res,
      fst (@logIn Demo.primitives Demo.passwordHash Demo.production 6000
             Demo.goodLogIn Demo.world) = Send res
      /\ statusCode res = 200
      /\ body res
         = TokenBody "success"
             (@createSendToken Demo.primitives Demo.production 6000 "5f1a")
             Demo.alice
      /\ User.password Demo.alice = Some "hash:correct horse")
  /\ (exists res saved,
         fst (@updateMyPassword Demo.primitives Demo.passwordHash
                Demo.production 6000 Demo.goodPasswordUpdate Demo.world)
         = Send res
         /\ statusCode res = 200
         /\ body res
            = TokenBody "success"
                (@createSendToken Demo.primitives Demo.production 6000 "5f1a")
                saved
         /\ User.password saved = Some "hash:n3w"
         /\ List.find (fun d => String.eqb (User._id d) "5f1a")
                      (users (snd (@updateMyPassword Demo.primitives
                                     Demo.passwordHash Demo.production 6000
                                     Demo.goodPasswordUpdate Demo.world)))
            = Some saved).
Proof.
  refine (@success_responses_carry_password_hash
            Demo.primitives Demo.passwordHash Demo.production 6000
            Demo.goodLogIn Demo.goodPasswordUpdate Demo.world Demo.world
            "alice@example.com" "correct horse" "hash:correct horse" Demo.alice
            Demo.alice Demo.alice "hash:correct horse" "n3w"
            _ _ _ _ _ _ _ _ _ _ _ _ _);
    solve [reflexivity | discriminate].
Defined.

(** ** Log-out *)

(** C7.  Log-out answers 200 and overwrites the [jwt] cookie with the value
    ["loggedout"] and an expiry ten seconds after the clock reading; it makes
    no call and leaves the store as it was, so a token issued before, still
    unexpired and presented in the [Authorization] header afterwards, passes
    the gate. *)
Theorem logOut_only_overwrites_cookie
  `{P : JwtPrimitives} {Ok : JwtPrimitivesOk P} (env : Env)
  (issuedAt logoutAt now : Z) (reqOut req : Request) (w : World)
  (userId : string) (u : User.Doc) :
  let token := createSendToken env issuedAt userId in
  authorization req = Some ("Bearer " ++ token) ->
  now / 1000 < issuedAt / 1000 + JWT_EXPIRES_IN env ->
  List.find (fun d => String.eqb (User._id d) userId) (users w) = Some u ->
  UserModel.passwordChangedAfter u (issuedAt / 1000) = false ->
  let after := logOut env logoutAt reqOut w in
  fst after
  = Send {| statusCode := 200;
            cookies :=
              [ {| cookieName := "jwt";
                   cookieValue := "loggedout";
                   cookieOptions :=
                     {| expires := logoutAt + 10000;
                        secure := negb (isDevelopment env);
                        sameSite := if isDevelopment env
                                    then "Strict" else "None";
                        httpOnly := true;
                        path := "/" |} |} ];
            body := StatusBody "success" |}
  /\ snd after = w
  /\ fst (protect env now req (snd after))
     = Next (set_reqUser (User.hidePassword u) req).
Proof.
  intros token Hheader Hfresh Hfind Hunchanged after.
  assert (after = (fst after, w)) as Hafter by reflexivity.
  split; [reflexivity|]. split; [reflexivity|].
  rewrite Hafter. simpl snd.
  apply (gate_accepts_issued_token env issuedAt now req w userId u);
    [now left|assumption..].
Qed.

Lemma logOut_only_overwrites_cookie_witness :
  snd (logOut Demo.production 5500 (Demo.request None None [] None) Demo.world)
  = Demo.world
  /\ fst (@protect Demo.primitives Demo.production 6000 Demo.bearerRequest
            (snd (logOut Demo.production 5500
                    (Demo.request None None [] None) Demo.world)))
     = Next (set_reqUser (User.hidePassword Demo.alice) Demo.bearerRequest).
Proof.
  refine (proj2 (@logOut_only_overwrites_cookie
                   Demo.primitives DemoFacts.primitives_ok Demo.production
                   5000 5500 6000 (Demo.request None None [] None)
                   Demo.bearerRequest Demo.world "5f1a" Demo.alice _ _ _ _)).
  - reflexivity.
  - vm_compute. reflexivity.
  - reflexivity.
  - reflexivity.
Defined.

(** ** Routing *)

Lemma dispatch_handsOn {D : UriDecoder}
  (fns : list App.Middleware) (rest : list App.Layer)
  (req req' : App.HttpRequest) :
  App.handsOn fns req = Some req' ->
  App.dispatch (List.map (App.Use "/") fns ++ rest) None req
  = App.dispatch rest None req'.
Proof.
  revert req. induction fns as [|fn fns IH]; intros req Hpass; simpl in *.
  - now injection Hpass as ->.
  - destruct (fn req) as [next| |]; try discriminate. now apply IH.
Qed.

Lemma matchLayer_plain {D : UriDecoder} (mount path : string) :
  String.eqb mount "*" = false ->
  App.matchLayer mount path
  = if App.mountMatches mount path then App.Matches else App.Misses.
Proof. intros H. unfold App.matchLayer. now rewrite H. Qed.

(** C8, as amended.  A request that the middleware in front of the routes
    hands on (the CORS middleware answers every OPTIONS request itself, and a
    middleware may fail or answer) and whose path matches none of the four
    mounted prefixes reaches the wildcard layer, which decodes the path.
    When the path decodes, the request receives status 404 with the body
    [{"message": "Not Found"}], the body being left out for a HEAD request;
    when it does not, the decoding error goes to the error handler and the
    fallback does not run. *)
Theorem unmatched_path_gets_404 {D : UriDecoder}
  (helmet mongoSanitize xss hpp jsonParser cookieParser urlencoded
     userRouter dashboardRouter taskRouter settingsRouter : App.Middleware)
  (errorController : App.ErrorMiddleware) (req req' : App.HttpRequest) :
  App.handsOn [helmet; mongoSanitize; xss; hpp; App.cors;
               jsonParser; cookieParser; urlencoded] req = Some req' ->
  App.mounted (App.pathname req') = false ->
  App.app helmet mongoSanitize xss hpp jsonParser cookieParser urlencoded
          userRouter dashboardRouter taskRouter settingsRouter
          errorController req
  = match App.decode_param (App.pathname req') with
    | inr _ =>
        {| statusCode := 404; cookies := [];
           body := if String.eqb (App.method req') "HEAD" then EmptyBody
                   else MessageBody "Not Found" |}
    | inl err => errorController err req'
    end.
Proof.
  intros Hpass Hunmatched. unfold App.app.
  change (App.middlewares helmet mongoSanitize xss hpp jsonParser cookieParser
            urlencoded)
    with (List.map (App.Use "/")
            [helmet; mongoSanitize; xss; hpp; App.cors;
             jsonParser; cookieParser; urlencoded]).
  rewrite (dispatch_handsOn _ _ req req' Hpass).
  unfold App.mounted in Hunmatched.
  apply orb_false_elim in Hunmatched as [Hunmatched Hsettings].
  apply orb_false_elim in Hunmatched as [Hunmatched Htasks].
  apply orb_false_elim in Hunmatched as [Husers Hdashboard].
  unfold App.routes. cbn [app App.dispatch].
  rewrite !matchLayer_plain by reflexivity.
  rewrite Husers, Hdashboard, Htasks, Hsettings.
  unfold App.matchLayer. cbn [String.eqb Ascii.eqb Bool.eqb].
  now destruct (App.decode_param (App.pathname req')).
Qed.

Lemma unmatched_path_gets_404_witness :
  Demo.app {| App.method := "GET"; App.pathname := "/api/unknown" |}
  = App.notFound.
Proof.
  refine (@unmatched_path_gets_404 Demo.uriDecoder
            Demo.passThrough Demo.passThrough Demo.passThrough
            Demo.passThrough Demo.passThrough Demo.passThrough
            Demo.passThrough Demo.passThrough Demo.passThrough
            Demo.passThrough Demo.passThrough Demo.plainError
            {| App.method := "GET"; App.pathname := "/api/unknown" |}
            {| App.method := "GET"; App.pathname := "/api/unknown" |} _ _);
    reflexivity.
Defined.

(** C8, the claim as stated fails: an OPTIONS request for a path under no
    mounted prefix is answered by the CORS middleware with 204 and no body,
    before the fallback is reached. *)
Lemma options_request_is_answered_by_cors :
  App.mounted "/api/unknown" = false
  /\ Demo.app {| App.method := "OPTIONS"; App.pathname := "/api/unknown" |}
     = {| statusCode := 204; cookies := []; body := EmptyBody |}.
Proof. split; reflexivity. Qed.

(** A path under no mounted prefix that does not decode is answered by the
    error handler, which receives the framework's [URIError], and not by
    the fallback. *)
Lemma undecodable_path_reaches_the_error_handler
  (errorController : App.ErrorMiddleware) :
  App.mounted "/api/unknown%zz" = false
  /\ @App.app Demo.uriDecoder
       Demo.passThrough Demo.passThrough Demo.passThrough Demo.passThrough
       Demo.passThrough Demo.passThrough Demo.passThrough Demo.passThrough
       Demo.passThrough Demo.passThrough Demo.passThrough errorController
       {| App.method := "GET"; App.pathname := "/api/unknown%zz" |}
     = errorController
         (URIError "Failed to decode param '/api/unknown%zz'" 400)
         {| App.method := "GET"; App.pathname := "/api/unknown%zz" |}.
Proof. split; reflexivity. Qed.

(** A HEAD request for a path under no mounted prefix receives status 404
    without a body. *)
Lemma head_request_gets_404_without_body :
  App.mounted "/api/unknown" = false
  /\ Demo.app {| App.method := "HEAD"; App.pathname := "/api/unknown" |}
     = {| statusCode := 404; cookies := []; body := EmptyBody |}.
Proof. split; reflexivity. Qed.

(** ** Further properties of the controller *)

(** X1.  A token issued by [createSendToken] and presented once the clock in
    whole seconds has reached its expiry is refused: the gate hands
    jsonwebtoken's [TokenExpiredError] to [next] right after the
    verification, without looking up the user. *)
Theorem expired_token_is_rejected `{P : JwtPrimitives} {Ok : JwtPrimitivesOk P}
  (env : Env) (issuedAt now : Z) (req : Request) (w : World)
  (userId : string) :
  let token := createSendToken env issuedAt userId in
  authorization req = Some ("Bearer " ++ token)
  \/ (authorization req = None /\ cookies_jwt req = Some token) ->
  issuedAt / 1000 + JWT_EXPIRES_IN env <= now / 1000 ->
  protect env now req w
  = (NextError TokenExpiredError,
     {| users := users w; calls := calls w ++ [CallJwtVerify token] |}).
Proof.
  intros token Hpresented Hexpired.
  pose proof (requestToken_presented env issuedAt req userId Hpresented)
    as Hread.
  fold token in Hread.
  pose proof (sign_truthy userId (JWT_SECRET env) (JWT_EXPIRES_IN env)
                issuedAt) as Htruthy.
  fold (createSendToken env issuedAt userId) in Htruthy. fold token in Htruthy.
  pose proof (verify_sign_clock userId (JWT_SECRET env) (JWT_EXPIRES_IN env)
                issuedAt now) as Hverify.
  fold (createSendToken env issuedAt userId) in Hverify. fold token in Hverify.
  apply Z.leb_le in Hexpired. rewrite Hexpired in Hverify.
  rewrite protect_run. unfold Gate.run, Gate.step. rewrite Hread.
  destruct token as [|c rest]; [discriminate Htruthy|].
  rewrite Hverify. reflexivity.
Qed.

Lemma expired_token_is_rejected_witness :
  fst (@protect Demo.primitives Demo.production 3605000 Demo.bearerRequest
         Demo.world)
  = NextError TokenExpiredError.
Proof.
  rewrite (@expired_token_is_rejected Demo.primitives DemoFacts.primitives_ok
             Demo.production 5000 3605000 Demo.bearerRequest Demo.world
             "5f1a").
  - reflexivity.
  - left. reflexivity.
  - vm_compute. discriminate.
Defined.

(** X2.  A token that is still unexpired but was issued before the user's
    last password change is refused with 401 "User recently changed
    password. Please log in again.". *)
Theorem token_older_than_password_change_is_rejected
  `{P : JwtPrimitives} {Ok : JwtPrimitivesOk P}
  (env : Env) (issuedAt now changedAt : Z) (req : Request) (w : World)
  (userId : string) (u : User.Doc) :
  let token := createSendToken env issuedAt userId in
  authorization req = Some ("Bearer " ++ token)
  \/ (authorization req = None /\ cookies_jwt req = Some token) ->
  now / 1000 < issuedAt / 1000 + JWT_EXPIRES_IN env ->
  List.find (fun d => String.eqb (User._id d) userId) (users w) = Some u ->
  User.passwordChangedAt u = Some changedAt ->
  issuedAt / 1000 < changedAt / 1000 ->
  fst (protect env now req w)
  = NextError
      (ErrorHandler "User recently changed password. Please log in again." 401).
Proof.
  intros token Hpresented Hfresh Hfind Hchanged Hlater.
  pose proof (requestToken_presented env issuedAt req userId Hpresented)
    as Hread.
  fold token in Hread.
  pose proof (sign_truthy userId (JWT_SECRET env) (JWT_EXPIRES_IN env)
                issuedAt) as Htruthy.
  fold (createSendToken env issuedAt userId) in Htruthy. fold token in Htruthy.
  pose proof (verify_sign userId (JWT_SECRET env) (JWT_EXPIRES_IN env)
                issuedAt now Hfresh) as Hverify.
  fold (createSendToken env issuedAt userId) in Hverify. fold token in Hverify.
  rewrite protect_run. unfold Gate.run, Gate.step. rewrite Hread.
  destruct token as [|c rest]; [discriminate Htruthy|].
  rewrite Hverify. simpl. rewrite Hfind. simpl.
  unfold UserModel.passwordChangedAfter. simpl. rewrite Hchanged.
  apply Z.ltb_lt in Hlater. now rewrite Hlater.
Qed.

Lemma token_older_than_password_change_is_rejected_witness :
  fst (@protect Demo.primitives Demo.production 9000 Demo.bearerRequest
         {| users := [Demo.aliceChanged]; calls := [] |})
  = NextError
      (ErrorHandler "User recently changed password. Please log in again." 401).
Proof.
  refine (@token_older_than_password_change_is_rejected
            Demo.primitives DemoFacts.primitives_ok Demo.production
            5000 9000 8000 Demo.bearerRequest
            {| users := [Demo.aliceChanged]; calls := [] |}
            "5f1a" Demo.aliceChanged _ _ _ _ _).
  - left. reflexivity.
  - vm_compute. reflexivity.
  - reflexivity.
  - reflexivity.
  - vm_compute. reflexivity.
Defined.

(** X3.  [filterObject] computes the restriction of the object to the
    allowed keys other than ["__proto__"]: the same map as filtering its
    entries by membership of the key in the allow-list, the key
    ["__proto__"] excepted, which is never copied. *)
Theorem filterObject_is_restriction {V} (obj : gmap string V)
  (allowedFields : list string) :
  filterObject obj allowedFields
  = filter (fun kv => kv.1 ∈ allowedFields /\ kv.1 <> "__proto__") obj.
Proof.
  apply map_eq. intros k.
  rewrite filterObject_lookup_own, map_lookup_filter.
  destruct (obj !! k) as [v|] eqn:Hk; simpl.
  - case_bool_decide as Hin; simpl.
    + destruct (String.eqb k "__proto__") eqn:Hp; simpl.
      * apply String.eqb_eq in Hp. rewrite option_guard_False; [reflexivity|].
        intros [_ Hne]. contradiction.
      * apply String.eqb_neq in Hp. now rewrite option_guard_True.
    + rewrite option_guard_False; [reflexivity|]. intros [Hk' _]. contradiction.
  - now destruct (bool_decide (k ∈ allowedFields) && negb (String.eqb k "__proto__")).
Qed.

(** X4.  A log-in request without an email or without a password is
    refused with 401 "Please enter email and password" before any call to
    the data layer. *)
Theorem logIn_requires_email_and_password
  `{P : JwtPrimitives} `{H : PasswordHash} (env : Env) (now : Z)
  (req : Request) (w : World) :
  Js.truthy (reqBody req !! "email") = false
  \/ Js.truthy (reqBody req !! "password") = false ->
  logIn env now req w
  = (NextError (ErrorHandler "Please enter email and password" 401), w).
Proof.
  intros Hmissing. unfold logIn, catchAsync, logIn_fn.
  assert (negb (Js.truthy (reqBody req !! "email"))
          || negb (Js.truthy (reqBody req !! "password")) = true) as ->.
  { destruct Hmissing as [-> | ->]; [reflexivity|apply orb_true_r]. }
  reflexivity.
Qed.

Lemma logIn_requires_email_and_password_witness :
  @logIn Demo.primitives Demo.passwordHash Demo.production 6000
    Demo.incompleteLogIn Demo.world
  = (NextError (ErrorHandler "Please enter email and password" 401),
     Demo.world).
Proof.
  apply (@logIn_requires_email_and_password Demo.primitives Demo.passwordHash
           Demo.production 6000 Demo.incompleteLogIn Demo.world).
  right. reflexivity.
Defined.

(** ** What the gate accepts *)

(** X5.  The gate passes control on only for a request that carries a
    non-empty token which [jwt.verify] accepts under the configured secret
    at the clock reading and which decodes to the identifier of a user in
    the store whose password did not change after the token's issue time;
    the record it attaches is the record of that user, with the password
    field hidden; the calls made are the verification, the lookup and the
    password check, in that order, and the store is left as it was. *)
Theorem gate_authorizes_only_verified_tokens `{P : JwtPrimitives}
  (env : Env) (now : Z) (req req' : Request) (w w' : World) :
  protect env now req w = (Next req', w') ->
  exists token decoded u,
    requestToken req = Some token
    /\ token <> ""
    /\ jwt.verify token (JWT_SECRET env) now = inr decoded
    /\ List.find (fun d => String.eqb (User._id d) (id decoded)) (users w)
       = Some u
    /\ User._id u = id decoded
    /\ UserModel.passwordChangedAfter u (iat decoded) = false
    /\ req' = set_reqUser (User.hidePassword u) req
    /\ User.password (User.hidePassword u) = None
    /\ calls w' = (calls w ++ [CallJwtVerify token; CallFindById (id decoded);
                               CallPasswordChangedAfter (User._id u)
                                 (iat decoded)])%list
    /\ users w' = users w.
Proof.
  intros Hrun.
  assert (w' = {| users := users w;
                  calls := calls w ++ protectCalls env now req w |}) as Hworld.
  { rewrite protect_run, gate_run_world in Hrun. now injection Hrun as _ <-. }
  rewrite protect_run in Hrun. unfold Gate.run, Gate.step in Hrun.
  unfold protectCalls in Hworld.
  destruct (requestToken req) as [[|c rest]|] eqn:Hread; try discriminate.
  destruct (jwt.verify (String c rest) (JWT_SECRET env) now)
    as [err|decoded] eqn:Hverify; [discriminate|].
  simpl in Hrun.
  destruct (List.find _ (users w)) as [u|] eqn:Hfind; [|discriminate].
  simpl in Hrun.
  destruct (UserModel.passwordChangedAfter (User.hidePassword u) (iat decoded))
    eqn:Hchanged; [discriminate|].
  simpl in Hrun. injection Hrun as <- _. subst w'.
  exists (String c rest), decoded, u.
  repeat split; try assumption; try discriminate.
  apply List.find_some in Hfind as [_ Heq]. now apply String.eqb_eq.
Qed.

Lemma gate_authorizes_only_verified_tokens_witness :
  exists token decoded u,
    requestToken Demo.bearerRequest = Some token
    /\ token <> ""
    /\ @jwt.verify Demo.primitives token (JWT_SECRET Demo.production) 6000
       = inr decoded
    /\ List.find (fun d => String.eqb (User._id d) (id decoded))
                 (users Demo.world) = Some u
    /\ User._id u = id decoded
    /\ UserModel.passwordChangedAfter u (iat decoded) = false
    /\ set_reqUser (User.hidePassword Demo.alice) Demo.bearerRequest
       = set_reqUser (User.hidePassword u) Demo.bearerRequest
    /\ User.password (User.hidePassword u) = None
    /\ calls {| users := [Demo.alice];
                calls := [CallJwtVerify Demo.aliceToken; CallFindById "5f1a";
                          CallPasswordChangedAfter "5f1a" 5] |}
       = (calls Demo.world
          ++ [CallJwtVerify token; CallFindById (id decoded);
              CallPasswordChangedAfter (User._id u) (iat decoded)])%list
    /\ users {| users := [Demo.alice];
                calls := [CallJwtVerify Demo.aliceToken; CallFindById "5f1a";
                          CallPasswordChangedAfter "5f1a" 5] |}
       = users Demo.world.
Proof.
  apply (@gate_authorizes_only_verified_tokens Demo.primitives
           Demo.production 6000 Demo.bearerRequest).
  vm_compute. reflexivity.
Defined.

(** X6.  The cookie that log-out sets is never accepted: a request that
    presents it to the gate, with no [Authorization] header, is refused with
    jsonwebtoken's "jwt malformed" error right after the verification,
    whatever the configuration, the clock and the store. *)
Theorem logged_out_cookie_is_rejected `{P : JwtPrimitives}
  (env : Env) (logoutAt now : Z) (reqOut req : Request) (w0 w : World) :
  authorization req = None ->
  cookies_jwt req = sentCookie (fst (logOut env logoutAt reqOut w0)) ->
  protect env now req w
  = (NextError (JsonWebTokenError "jwt malformed"),
     {| users := users w; calls := calls w ++ [CallJwtVerify "loggedout"] |}).
Proof.
  intros Hheader Hcookie. simpl in Hcookie.
  assert (requestToken req = Some "loggedout") as Hread.
  { now apply requestToken_cookie. }
  rewrite protect_run. unfold Gate.run, Gate.step. rewrite Hread.
  reflexivity.
Qed.

Lemma logged_out_cookie_is_rejected_witness :
  fst (@protect Demo.primitives Demo.production 6000
         (Demo.cookieRequest (Some "loggedout")) Demo.world)
  = NextError (JsonWebTokenError "jwt malformed").
Proof.
  rewrite (@logged_out_cookie_is_rejected Demo.primitives Demo.production
             5500 6000 (Demo.request None None [] None)
             (Demo.cookieRequest (Some "loggedout")) Demo.world Demo.world
             eq_refl eq_refl).
  reflexivity.
Defined.

(** X7.  The cookie a successful log-in sets is accepted by the gate: a
    later request that presents it, before the token expires and with no
    password change in between, is passed on with the record of the user
    who logged in, the password field hidden. *)
Theorem logIn_cookie_passes_the_gate
  `{P : JwtPrimitives} {Ok : JwtPrimitivesOk P} `{H : PasswordHash}
  (env : Env) (loginAt now : Z) (reqIn req : Request) (w : World)
  (email password stored : string) (u : User.Doc) :
  reqBody reqIn !! "email" = Some email ->
  reqBody reqIn !! "password" = Some password ->
  email <> "" -> password <> "" ->
  List.find (fun d => String.eqb (User.email d) email) (users w) = Some u ->
  User.password u = Some stored ->
  comparePasswords password stored = true ->
  List.find (fun d => String.eqb (User._id d) (User._id u)) (users w) = Some u ->
  UserModel.passwordChangedAfter u (loginAt / 1000) = false ->
  now / 1000 < loginAt / 1000 + JWT_EXPIRES_IN env ->
  authorization req = None ->
  cookies_jwt req = sentCookie (fst (logIn env loginAt reqIn w)) ->
  fst (protect env now req (snd (logIn env loginAt reqIn w)))
  = Next (set_reqUser (User.hidePassword u) req).
Proof.
  intros He Hp Hne Hnp Hfind Hstored Hmatch Hid Hunchanged Hfresh Hh Hc.
  rewrite (logIn_run env loginAt reqIn w email password) in * by assumption.
  rewrite Hfind in *. cbv zeta in *. rewrite Hstored, Hmatch in *.
  simpl in Hc. simpl snd.
  apply (gate_accepts_issued_token env loginAt now req _ (User._id u) u);
    [right; now split|assumption..].
Qed.

Lemma logIn_cookie_passes_the_gate_witness :
  fst (@protect Demo.primitives Demo.production 6000
         (Demo.cookieRequest (Some Demo.aliceToken))
         (snd (@logIn Demo.primitives Demo.passwordHash Demo.production 5000
                 Demo.goodLogIn Demo.world)))
  = Next (set_reqUser (User.hidePassword Demo.alice)
            (Demo.cookieRequest (Some Demo.aliceToken))).
Proof.
  refine (@logIn_cookie_passes_the_gate
            Demo.primitives DemoFacts.primitives_ok Demo.passwordHash
            Demo.production 5000 6000 Demo.goodLogIn
            (Demo.cookieRequest (Some Demo.aliceToken)) Demo.world
            "alice@example.com" "correct horse" "hash:correct horse"
            Demo.alice _ _ _ _ _ _ _ _ _ _ _ _);
    solve [reflexivity | discriminate | vm_compute; reflexivity].
Defined.

(** ** What a token says *)

Lemma sign_split `{P : JwtPrimitives} {Ok : JwtPrimitivesOk P}
  userId secret expiresIn now :
  let payload := {| id := userId; iat := now / 1000;
                    exp := now / 1000 + expiresIn |} in
  Js.split "." (jwt.sign userId secret expiresIn now)
  = [encodedHeader; encodePayload payload;
     hmac secret (encodedHeader ++ "." ++ encodePayload payload)].
Proof.
  cbv zeta. rewrite sign_segments. cbv zeta.
  rewrite split_append by (apply header_lacks; now left).
  rewrite split_append by (apply payload_lacks; now left).
  rewrite split_lacks by (apply hmac_lacks; now left).
  reflexivity.
Qed.

(** X8.  A token names its user: two tokens issued by [createSendToken] are
    equal only if they were issued for the same identifier, in the same
    second, with the same lifetime. *)
Theorem tokens_identify_their_user
  `{P : JwtPrimitives} {Ok : JwtPrimitivesOk P}
  (env env' : Env) (now now' : Z) (userId userId' : string) :
  createSendToken env now userId = createSendToken env' now' userId' ->
  userId = userId'
  /\ now / 1000 = now' / 1000
  /\ JWT_EXPIRES_IN env = JWT_EXPIRES_IN env'.
Proof.
  unfold createSendToken. intros Heq.
  apply (f_equal (Js.split ".")) in Heq. rewrite !sign_split in Heq.
  injection Heq as Hpayload _.
  apply (f_equal decodePayload) in Hpayload. rewrite !decode_encode in Hpayload.
  injection Hpayload as Hid Hiat Hexp.
  repeat split; [assumption..|lia].
Qed.

Lemma tokens_identify_their_user_witness :
  "5f1a" = "5f1a" /\ 5000 / 1000 = 5999 / 1000
  /\ JWT_EXPIRES_IN Demo.production = JWT_EXPIRES_IN Demo.development.
Proof.
  apply (@tokens_identify_their_user Demo.primitives DemoFacts.primitives_ok
           Demo.production Demo.development 5000 5999 "5f1a" "5f1a").
  vm_compute. reflexivity.
Defined.

(** X9.  A token issued under another configuration, whose signature
    differs from the one the gate's secret gives for the same header and
    payload, is refused with jsonwebtoken's "invalid signature" error right
    after the verification: no user is looked up. *)
Theorem token_signed_under_another_secret_is_rejected
  `{P : JwtPrimitives} {Ok : JwtPrimitivesOk P}
  (env issuer : Env) (issuedAt now : Z) (req : Request) (w : World)
  (userId : string) :
  let token := createSendToken issuer issuedAt userId in
  let payload := {| id := userId; iat := issuedAt / 1000;
                    exp := issuedAt / 1000 + JWT_EXPIRES_IN issuer |} in
  let signingInput := encodedHeader ++ "." ++ encodePayload payload in
  authorization req = Some ("Bearer " ++ token)
  \/ (authorization req = None /\ cookies_jwt req = Some token) ->
  hmac (JWT_SECRET issuer) signingInput <> hmac (JWT_SECRET env) signingInput ->
  protect env now req w
  = (NextError (JsonWebTokenError "invalid signature"),
     {| users := users w; calls := calls w ++ [CallJwtVerify token] |}).
Proof.
  intros token payload signingInput Hpresented Hdiffers.
  pose proof (requestToken_presented issuer issuedAt req userId Hpresented)
    as Hread.
  fold token in Hread.
  pose proof (sign_truthy userId (JWT_SECRET issuer) (JWT_EXPIRES_IN issuer)
                issuedAt) as Htruthy.
  fold (createSendToken issuer issuedAt userId) in Htruthy.
  fold token in Htruthy.
  assert (jwt.verify token (JWT_SECRET env) now
          = inl (JsonWebTokenError "invalid signature")) as Hverify.
  { unfold jwt.verify, token, createSendToken. rewrite sign_split.
    fold payload. rewrite decode_encode, String.eqb_refl. simpl negb.
    cbv iota. fold signingInput.
    apply String.eqb_neq in Hdiffers. now rewrite Hdiffers. }
  rewrite protect_run. unfold Gate.run, Gate.step. rewrite Hread.
  destruct token as [|c rest]; [discriminate Htruthy|].
  rewrite Hverify. reflexivity.
Qed.

Lemma token_signed_under_another_secret_is_rejected_witness :
  fst (@protect Demo.primitives Demo.production 6000
         (Demo.cookieRequest (Some Demo.foreignToken)) Demo.world)
  = NextError (JsonWebTokenError "invalid signature").
Proof.
  rewrite (@token_signed_under_another_secret_is_rejected
             Demo.primitives DemoFacts.primitives_ok Demo.production
             {| JWT_SECRET := "another-secret"; JWT_EXPIRES_IN := 3600;
                COOKIE_EXPIRES_IN := 7; NODE_ENV := None |}
             5000 6000 (Demo.cookieRequest (Some Demo.foreignToken))
             Demo.world "5f1a").
  - reflexivity.
  - right. split; reflexivity.
  - vm_compute. discriminate.
Defined.

(** ** What the handlers leave alone *)

Lemma logIn_store `{P : JwtPrimitives} `{H : PasswordHash} env now req w :
  users (snd (logIn env now req w)) = users w.
Proof.
  unfold logIn, catchAsync, logIn_fn.
  destruct (negb (Js.truthy (reqBody req !! "email"))
            || negb (Js.truthy (reqBody req !! "password"))); [reflexivity|].
  unfold UserModel.findOne, UserModel.comparePasswords_async. run_async.
  destruct (List.find _ (users w)) as [u|]; [|reflexivity].
  simpl. destruct (User.password u) as [stored|]; [|reflexivity].
  destruct (comparePasswords _ stored); reflexivity.
Qed.

(** X10.  Log-in, the gate and log-out only read: whatever the request and
    whatever the outcome, the user collection after the handler is the
    collection before it. *)
Theorem reading_handlers_never_write
  `{P : JwtPrimitives} `{H : PasswordHash}
  (env : Env) (now : Z) (req : Request) (w : World) :
  users (snd (logIn env now req w)) = users w
  /\ users (snd (protect env now req w)) = users w
  /\ users (snd (logOut env now req w)) = users w.
Proof.
  split; [apply logIn_store|]. split; [|reflexivity].
  rewrite protect_run. simpl snd. now rewrite gate_run_world.
Qed.

Lemma replaceDoc_ids (userId : string) (d : User.Doc) (us : list User.Doc) :
  User._id d = userId ->
  User._id <$> UserModel.replaceDoc userId d us = User._id <$> us.
Proof.
  intros Hid. induction us as [|x us IH]; [reflexivity|].
  cbn [UserModel.replaceDoc List.map fmap list_fmap] in *.
  destruct (String.eqb (User._id x) userId) eqn:Hx.
  - apply String.eqb_eq in Hx. f_equal; [congruence|exact IH].
  - f_equal. exact IH.
Qed.

Lemma replaceDoc_other (userId : string) (d x : User.Doc)
  (us : list User.Doc) (i : nat) :
  us !! i = Some x -> User._id x <> userId ->
  UserModel.replaceDoc userId d us !! i = Some x.
Proof.
  intros Hx Hne. unfold UserModel.replaceDoc.
  change (List.map ?f us) with (f <$> us).
  rewrite list_lookup_fmap, Hx. simpl.
  apply String.eqb_neq in Hne. now rewrite Hne.
Qed.

(** The store after an update: as before, or with the caller's record
    replaced by a record of the same identifier. *)
Lemma updateMe_store req w :
  users (snd (updateMe req w)) = users w
  \/ exists ru d',
       reqUser req = Some ru /\ User._id d' = User._id ru
       /\ users (snd (updateMe req w))
          = UserModel.replaceDoc (User._id ru) d' (users w).
Proof.
  destruct (reqUser req) as [ru|] eqn:Hru.
  - destruct (List.find (fun x => String.eqb (User._id x) (User._id ru))
                        (users w)) as [d|] eqn:Hfind.
    + right. rewrite (updateMe_run req w ru d Hru Hfind). cbv zeta.
      eexists ru, _. split; [reflexivity|]. split; [|reflexivity].
      simpl. apply List.find_some in Hfind as [_ Heq].
      now apply String.eqb_eq.
    + left. unfold updateMe, updateMe_fn, UserModel.findByIdAndUpdate,
        catchAsync. cbv beta. rewrite Hru. run_async. now rewrite Hfind.
  - left. unfold updateMe, updateMe_fn, catchAsync. cbv beta.
    now rewrite Hru.
Qed.

(** The password update, branch by branch: either nothing is stored and
    no response is sent, or the current password matched. *)
Lemma updateMyPassword_cases `{P : JwtPrimitives} `{H : PasswordHash}
  env now req w :
  (users (snd (updateMyPassword env now req w)) = users w
   /\ sentToken (fst (updateMyPassword env now req w)) = None)
  \/ exists ru u stored newPassword,
       reqUser req = Some ru
       /\ List.find (fun d => String.eqb (User._id d) (User._id ru)) (users w)
          = Some u
       /\ User.password u = Some stored
       /\ Js.truthy (reqBody req !! "password") = true
       /\ comparePasswords (Js.text (reqBody req !! "password")) stored = true
       /\ reqBody req !! "newPassword" = Some newPassword
       /\ fst (updateMyPassword env now req w)
          = Send (sendToken env now (UserModel.savedDoc now newPassword u) 200)
       /\ users (snd (updateMyPassword env now req w))
          = UserModel.replaceDoc (User._id u)
              (UserModel.savedDoc now newPassword u) (users w).
Proof.
  destruct (reqUser req) as [ru|] eqn:Hru.
  2:{ left. unfold updateMyPassword, updateMyPassword_fn, catchAsync.
      cbv beta. now rewrite Hru. }
  destruct (List.find (fun d => String.eqb (User._id d) (User._id ru))
                      (users w)) as [u|] eqn:Hfind.
  2:{ left. unfold updateMyPassword, updateMyPassword_fn, catchAsync,
        UserModel.findById. cbv beta. rewrite Hru. run_async. rewrite Hfind.
      simpl. now destruct (Js.truthy (reqBody req !! "password")). }
  destruct (User.password u) as [stored|] eqn:Hstored.
  2:{ left. unfold updateMyPassword, updateMyPassword_fn, catchAsync,
        UserModel.findById, UserModel.comparePasswords_async.
      cbv beta. rewrite Hru. run_async. rewrite Hfind. simpl.
      destruct (Js.truthy (reqBody req !! "password")); [|now split].
      simpl. now rewrite Hstored. }
  rewrite (updateMyPassword_run env now req w ru u stored Hru Hfind Hstored).
  destruct (Js.truthy (reqBody req !! "password")) eqn:Htruthy;
    [|left; now split].
  destruct (comparePasswords _ stored) eqn:Hmatch; [|left; now split].
  cbv zeta.
  destruct (reqBody req !! "newPassword") as [newPassword|] eqn:Hnew;
    [|left; now split].
  right. exists ru, u, stored, newPassword. repeat split; assumption.
Qed.

(** X11.  The two update handlers never add or remove a user and never
    touch another user's record: after a profile update and after a password
    update, whatever the request, the identifiers in the collection are the
    same in the same order, and every record whose identifier is not the
    caller's is as it was. *)
Theorem updates_touch_only_the_callers_record
  `{P : JwtPrimitives} `{H : PasswordHash}
  (env : Env) (now : Z) (req : Request) (w : World) :
  let afterProfile := users (snd (updateMe req w)) in
  let afterPassword := users (snd (updateMyPassword env now req w)) in
  User._id <$> afterProfile = User._id <$> users w
  /\ User._id <$> afterPassword = User._id <$> users w
  /\ forall (i : nat) (d : User.Doc),
       users w !! i = Some d ->
       (forall ru, reqUser req = Some ru -> User._id d <> User._id ru) ->
       afterProfile !! i = Some d /\ afterPassword !! i = Some d.
Proof.
  intros afterProfile afterPassword. subst afterProfile afterPassword.
  destruct (updateMe_store req w) as [Hme|(ru & d' & Hru & Hid & Hme)];
    rewrite Hme;
    (destruct (updateMyPassword_cases env now req w)
      as [[Hpw _]|(ru' & u & stored & np & Hru' & Hfind & _ & _ & _ & _ & _
                   & Hpw)]); rewrite Hpw; clear Hme Hpw.
  - repeat split; auto.
  - assert (User._id u = User._id ru') as Hu.
    { apply List.find_some in Hfind as [_ Heq]. now apply String.eqb_eq. }
    split; [reflexivity|]. split; [now apply replaceDoc_ids|].
    intros i d Hd Hother. split; [exact Hd|].
    apply replaceDoc_other; [exact Hd|]. rewrite Hu. now apply Hother.
  - split; [now apply replaceDoc_ids|]. split; [reflexivity|].
    intros i d Hd Hother. split; [|exact Hd].
    apply replaceDoc_other; [exact Hd|now apply Hother].
  - assert (User._id u = User._id ru') as Hu.
    { apply List.find_some in Hfind as [_ Heq]. now apply String.eqb_eq. }
    split; [now apply replaceDoc_ids|]. split; [now apply replaceDoc_ids|].
    intros i d Hd Hother. split.
    + apply replaceDoc_other; [exact Hd|now apply Hother].
    + apply replaceDoc_other; [exact Hd|]. rewrite Hu. now apply Hother.
Qed.

(** X12.  A password update stores something, and answers with a token,
    only after the supplied current password matched the stored hash: for
    every request, either the collection is unchanged and the response
    carries no token, or the caller's record was found, the comparison
    succeeded, and the record now holds the hash of the new password. *)
Theorem password_changes_only_after_a_match
  `{P : JwtPrimitives} `{H : PasswordHash}
  (env : Env) (now : Z) (req : Request) (w : World) :
  let result := updateMyPassword env now req w in
  (users (snd result) = users w /\ sentToken (fst result) = None)
  \/ exists ru u stored newPassword,
       reqUser req = Some ru
       /\ List.find (fun d => String.eqb (User._id d) (User._id ru)) (users w)
          = Some u
       /\ User.password u = Some stored
       /\ comparePasswords (Js.text (reqBody req !! "password")) stored = true
       /\ reqBody req !! "newPassword" = Some newPassword
       /\ sentToken (fst result) = Some (createSendToken env now (User._id u))
       /\ List.find (fun d => String.eqb (User._id d) (User._id ru))
                    (users (snd result))
          = Some (UserModel.savedDoc now newPassword u)
       /\ User.password (UserModel.savedDoc now newPassword u)
          = Some (hashPassword newPassword).
Proof.
  intros result. subst result.
  destruct (updateMyPassword_cases env now req w)
    as [Hsame|(ru & u & stored & np & Hru & Hfind & Hstored & _ & Hmatch
               & Hnew & Hsent & Hstore)]; [now left|].
  right. exists ru, u, stored, np. rewrite Hsent, Hstore.
  repeat split; try assumption.
  assert (User._id u = User._id ru) as Hu.
  { apply List.find_some in Hfind as [_ Heq]. now apply String.eqb_eq. }
  rewrite Hu. apply (find_replaceDoc (User._id ru) _ u); [exact Hfind|exact Hu].
Qed.

(** ** Allow-lists compose *)

(** X13.  Filtering twice keeps the fields allowed by both lists (the key
    ["__proto__"], which is never copied, excepted), in either order of the
    two filters; an empty allow-list and an empty object both give the
    empty object. *)
Theorem filterObject_composes {V} (obj : gmap string V)
  (first second : list string) :
  (forall k, filterObject (filterObject obj first) second !! k
             = if bool_decide (k ∈ first) && bool_decide (k ∈ second)
                  && negb (String.eqb k "__proto__")
               then obj !! k else None)
  /\ filterObject (filterObject obj first) second
     = filterObject (filterObject obj second) first
  /\ filterObject obj [] = ∅
  /\ filterObject (∅ : gmap string V) first = ∅.
Proof.
  assert (forall a b k,
             filterObject (filterObject obj a) b !! k
             = if bool_decide (k ∈ a) && bool_decide (k ∈ b)
                  && negb (String.eqb k "__proto__")
               then obj !! k else None) as Hboth.
  { intros a b k. rewrite !filterObject_lookup_own.
    now destruct (bool_decide (k ∈ a)), (bool_decide (k ∈ b)),
      (String.eqb k "__proto__"). }
  split; [apply Hboth|]. split; [|split].
  - apply map_eq. intros k. rewrite !Hboth.
    now destruct (bool_decide (k ∈ first)), (bool_decide (k ∈ second)).
  - apply map_eq. intros k. rewrite filterObject_lookup_own, lookup_empty.
    case_bool_decide as Hin; [|reflexivity]. now apply elem_of_nil in Hin.
  - apply map_eq. intros k. rewrite filterObject_lookup_own, lookup_empty.
    now destruct (bool_decide (k ∈ first) && negb (String.eqb k "__proto__")).
Qed.

(** ** Updates for a caller whose record is gone *)

(** X14.  When the caller's record is no longer in the store, a profile
    update still answers 200, with [user: null]; a password update hands a
    [TypeError] to [next] when a current password is supplied and refuses
    with 400 "Current password is incorrect" when it is not; neither changes
    the store. *)
Theorem updates_for_a_vanished_record
  `{P : JwtPrimitives} `{H : PasswordHash}
  (env : Env) (now : Z) (req : Request) (w : World) (ru : User.Doc) :
  reqUser req = Some ru ->
  List.find (fun d => String.eqb (User._id d) (User._id ru)) (users w) = None ->
  fst (updateMe req w)
  = Send {| statusCode := 200; cookies := []; body := UserBody "success" None |}
  /\ users (snd (updateMe req w)) = users w
  /\ fst (updateMyPassword env now req w)
     = (if Js.truthy (reqBody req !! "password")
        then NextError TypeError
        else NextError (ErrorHandler "Current password is incorrect" 400))
  /\ users (snd (updateMyPassword env now req w)) = users w.
Proof.
  intros Hru Hfind. repeat split.
  - unfold updateMe, updateMe_fn, UserModel.findByIdAndUpdate, catchAsync.
    cbv beta. rewrite Hru. run_async. now rewrite Hfind.
  - unfold updateMe, updateMe_fn, UserModel.findByIdAndUpdate, catchAsync.
    cbv beta. rewrite Hru. run_async. now rewrite Hfind.
  - unfold updateMyPassword, updateMyPassword_fn, catchAsync,
      UserModel.findById. cbv beta. rewrite Hru. run_async. rewrite Hfind.
    simpl. now destruct (Js.truthy (reqBody req !! "password")).
  - unfold updateMyPassword, updateMyPassword_fn, catchAsync,
      UserModel.findById. cbv beta. rewrite Hru. run_async. rewrite Hfind.
    simpl. now destruct (Js.truthy (reqBody req !! "password")).
Qed.

Lemma updates_for_a_vanished_record_witness :
  fst (updateMe Demo.goodPasswordUpdate {| users := [Demo.bob]; calls := [] |})
  = Send {| statusCode := 200; cookies := []; body := UserBody "success" None |}
  /\ fst (@updateMyPassword Demo.primitives Demo.passwordHash Demo.production
            9000 Demo.goodPasswordUpdate {| users := [Demo.bob]; calls := [] |})
     = NextError TypeError.
Proof.
  destruct (@updates_for_a_vanished_record Demo.primitives Demo.passwordHash
              Demo.production 9000 Demo.goodPasswordUpdate
              {| users := [Demo.bob]; calls := [] |} Demo.alice
              eq_refl eq_refl) as (Hme & _ & Hpw & _).
  split; [exact Hme|exact Hpw].
Defined.

(** ** Account deletion *)

Lemma removeDoc_absent userId us :
  List.find (fun d => String.eqb (User._id d) userId) us = None ->
  Accounts.removeDoc userId us = us.
Proof.
  induction us as [|x us IH]; [reflexivity|]. simpl.
  destruct (String.eqb (User._id x) userId); [discriminate|].
  intros Hnone. now rewrite IH.
Qed.

Lemma find_removeDoc_other userId other us :
  other <> userId ->
  List.find (fun d => String.eqb (User._id d) other)
            (Accounts.removeDoc userId us)
  = List.find (fun d => String.eqb (User._id d) other) us.
Proof.
  intros Hne. induction us as [|x us IH]; [reflexivity|]. simpl.
  destruct (String.eqb (User._id x) userId) eqn:Hx.
  - apply String.eqb_eq in Hx.
    assert (String.eqb (User._id x) other = false) as ->; [|reflexivity].
    apply String.eqb_neq. congruence.
  - simpl. now rewrite IH.
Qed.

Lemma find_absent_id userId us :
  userId ∉ User._id <$> us ->
  List.find (fun d => String.eqb (User._id d) userId) us = None.
Proof.
  induction us as [|x us IH]; [reflexivity|]. simpl. intros Hnot.
  apply not_elem_of_cons in Hnot as [Hne Hrest].
  assert (String.eqb (User._id x) userId = false) as ->.
  { apply String.eqb_neq. congruence. }
  now apply IH.
Qed.

Lemma find_removeDoc_same userId us :
  NoDup (User._id <$> us) ->
  List.find (fun d => String.eqb (User._id d) userId)
            (Accounts.removeDoc userId us) = None.
Proof.
  induction us as [|x us IH]; [reflexivity|]. simpl. intros Hnodup.
  apply NoDup_cons in Hnodup as [Hfresh Hnodup].
  destruct (String.eqb (User._id x) userId) eqn:Hx.
  - apply String.eqb_eq in Hx. subst userId. now apply find_absent_id.
  - simpl. rewrite Hx. now apply IH.
Qed.

Lemma deleteMe_run userId req w :
  deleteMe userId req w
  = (Send {| statusCode := 204; cookies := []; body := StatusBody "success" |},
     {| users := Accounts.removeDoc userId (users w); calls := calls w |}).
Proof.
  unfold deleteMe, deleteMe_fn, Accounts.findByIdAndDelete, catchAsync.
  run_async.
  destruct (List.find _ (users w)) as [d|] eqn:Hfind; simpl.
  - reflexivity.
  - rewrite removeDoc_absent by exact Hfind. now destruct w.
Qed.

(** X15.  Account deletion answers 204 and removes the record with the
    identifier in the path whoever the caller is (the request, and with it
    the authenticated user, is not consulted): every record with another
    identifier stays as it was, an identifier that is not in the store
    leaves the store unchanged, and with unique identifiers no record with
    the deleted identifier remains. *)
Theorem deleteMe_removes_the_record_whoever_asks
  (userId : string) (req req' : Request) (w : World) :
  let result := deleteMe userId req w in
  fst result
  = Send {| statusCode := 204; cookies := []; body := StatusBody "success" |}
  /\ deleteMe userId req' w = result
  /\ (forall other,
         other <> userId ->
         List.find (fun d => String.eqb (User._id d) other)
                   (users (snd result))
         = List.find (fun d => String.eqb (User._id d) other) (users w))
  /\ (List.find (fun d => String.eqb (User._id d) userId) (users w) = None ->
      users (snd result) = users w)
  /\ (NoDup (User._id <$> users w) ->
      List.find (fun d => String.eqb (User._id d) userId)
                (users (snd result)) = None).
Proof.
  intros result. subst result. rewrite !deleteMe_run. simpl.
  split; [reflexivity|]. split; [reflexivity|]. split; [|split].
  - intros other Hne. now apply find_removeDoc_other.
  - apply removeDoc_absent.
  - apply find_removeDoc_same.
Qed.

(** X16.  Once an account is deleted its tokens are dead: with unique
    identifiers in the store, a still-unexpired token issued for the deleted
    user is refused by the gate with 401 "The user belonging to this token
    no longer exists.". *)
Theorem deleted_user_token_is_rejected
  `{P : JwtPrimitives} {Ok : JwtPrimitivesOk P}
  (env : Env) (issuedAt now : Z) (reqDelete req : Request) (w : World)
  (userId : string) :
  let token := createSendToken env issuedAt userId in
  authorization req = Some ("Bearer " ++ token)
  \/ (authorization req = None /\ cookies_jwt req = Some token) ->
  now / 1000 < issuedAt / 1000 + JWT_EXPIRES_IN env ->
  NoDup (User._id <$> users w) ->
  fst (protect env now req (snd (deleteMe userId reqDelete w)))
  = NextError
      (ErrorHandler "The user belonging to this token no longer exists." 401).
Proof.
  intros token Hpresented Hfresh Hnodup.
  pose proof (requestToken_presented env issuedAt req userId Hpresented)
    as Hread.
  fold token in Hread.
  pose proof (sign_truthy userId (JWT_SECRET env) (JWT_EXPIRES_IN env)
                issuedAt) as Htruthy.
  fold (createSendToken env issuedAt userId) in Htruthy. fold token in Htruthy.
  pose proof (verify_sign userId (JWT_SECRET env) (JWT_EXPIRES_IN env)
                issuedAt now Hfresh) as Hverify.
  fold (createSendToken env issuedAt userId) in Hverify. fold token in Hverify.
  rewrite deleteMe_run. simpl snd.
  rewrite protect_run. unfold Gate.run, Gate.step. rewrite Hread.
  destruct token as [|c rest]; [discriminate Htruthy|].
  rewrite Hverify. simpl.
  now rewrite (find_removeDoc_same userId (users w) Hnodup).
Qed.

Lemma deleted_user_token_is_rejected_witness :
  fst (@protect Demo.primitives Demo.production 6000 Demo.bearerRequest
         (snd (deleteMe "5f1a" (Demo.request None None [] None)
                 Demo.twoUsers)))
  = NextError
      (ErrorHandler "The user belonging to this token no longer exists." 401).
Proof.
  refine (@deleted_user_token_is_rejected
            Demo.primitives DemoFacts.primitives_ok Demo.production
            5000 6000 (Demo.request None None [] None) Demo.bearerRequest
            Demo.twoUsers "5f1a" _ _ _).
  - left. reflexivity.
  - vm_compute. reflexivity.
  - apply (bool_decide_unpack _). vm_compute. exact I.
Defined.

(** ** Sign-up *)

(** X17.  Sign-up hands the creation path only the [name], [email],
    [password] and [passwordConfirm] of the body: two requests that agree on
    those four fields are treated alike, whatever else they submit (a
    [role], say).  When the creation yields a user the answer is the 201
    response of [sendToken] for that user; when it fails, the failure goes
    to [next] and nothing is sent. *)
Theorem signUp_reads_four_fields `{P : JwtPrimitives}
  (env : Env) (now : Z) (create : Accounts.NewUser -> Async User.Doc)
  (req req' : Request) (w : World) :
  (forall k, k ∈ ["name"; "email"; "password"; "passwordConfirm"] ->
             reqBody req' !! k = reqBody req !! k) ->
  let new := {| Accounts.name := reqBody req !! "name";
                Accounts.email := reqBody req !! "email";
                Accounts.password := reqBody req !! "password";
                Accounts.passwordConfirm := reqBody req !! "passwordConfirm" |}
  in
  signUp env now create req' w = signUp env now create req w
  /\ signUp env now create req w
     = match create new w with
       | (inr user, w') => (Send (sendToken env now user 201), w')
       | (inl err, w') => (NextError err, w')
       end.
Proof.
  intros Hagree new. unfold signUp, signUp_fn, catchAsync. run_async.
  rewrite !Hagree by (repeat first [apply list_elem_of_here
                                   | apply list_elem_of_further]).
  fold new. split; [reflexivity|].
  now destruct (create new w) as [[err|user] w'].
Qed.

Lemma signUp_reads_four_fields_witness :
  @signUp Demo.primitives Demo.production 5000 Demo.createUser
    Demo.signUpWithRole Demo.world
  = @signUp Demo.primitives Demo.production 5000 Demo.createUser
      Demo.signUpPlain Demo.world.
Proof.
  refine (proj1 (@signUp_reads_four_fields Demo.primitives Demo.production
                   5000 Demo.createUser Demo.signUpPlain Demo.signUpWithRole
                   Demo.world _)).
  intros k Hk.
  repeat (apply elem_of_cons in Hk as [->|Hk]; [reflexivity|]).
  now apply elem_of_nil in Hk.
Defined.

(** ** Errors and routers in the application stack *)

Lemma dispatch_skips_on_error {D : UriDecoder} (fns : list App.Middleware) (mount : string)
  (rest : list App.Layer) (err : AppError) (req : App.HttpRequest) :
  App.dispatch (List.map (App.Use mount) fns ++ rest) (Some err) req
  = App.dispatch rest (Some err) req.
Proof. induction fns as [|fn fns IH]; [reflexivity|exact IH]. Qed.

Lemma dispatch_failsWith {D : UriDecoder}
  (fns : list App.Middleware) (rest : list App.Layer)
  (req r : App.HttpRequest) (err : AppError) :
  Routing.failsWith fns req = Some (err, r) ->
  App.dispatch (List.map (App.Use "/") fns ++ rest) None req
  = App.dispatch rest (Some err) r.
Proof.
  revert req. induction fns as [|fn fns IH]; intros req Hfail; simpl in *.
  - discriminate.
  - destruct (fn req) as [next|e|res]; try discriminate.
    + now apply IH.
    + injection Hfail as -> ->. apply dispatch_skips_on_error.
Qed.

Lemma dispatch_answersWith {D : UriDecoder}
  (fns : list App.Middleware) (rest : list App.Layer)
  (req : App.HttpRequest) (res : Response) :
  Routing.answersWith fns req = Some res ->
  App.dispatch (List.map (App.Use "/") fns ++ rest) None req = res.
Proof.
  revert req. induction fns as [|fn fns IH]; intros req Hans; simpl in *.
  - discriminate.
  - destruct (fn req) as [next|e|r]; try discriminate.
    + now apply IH.
    + now injection Hans as ->.
Qed.

(** X18.  What happens in front of the routes decides the response: when
    one of the eight middleware passes an error to [next], every later
    middleware, every router and the fallback are skipped and the response is
    the global error handler's for that error; when one of them answers, its
    answer is the response. *)
Theorem middleware_outcome_bypasses_the_routes {D : UriDecoder}
  (helmet mongoSanitize xss hpp jsonParser cookieParser urlencoded
     userRouter dashboardRouter taskRouter settingsRouter : App.Middleware)
  (errorController : App.ErrorMiddleware) (req : App.HttpRequest) :
  let stack := [helmet; mongoSanitize; xss; hpp; App.cors;
                jsonParser; cookieParser; urlencoded] in
  let response :=
    App.app helmet mongoSanitize xss hpp jsonParser cookieParser urlencoded
            userRouter dashboardRouter taskRouter settingsRouter
            errorController req in
  (forall err r, Routing.failsWith stack req = Some (err, r) ->
                 response = errorController err r)
  /\ (forall res, Routing.answersWith stack req = Some res -> response = res).
Proof.
  intros stack response. subst response. unfold App.app.
  change (App.middlewares helmet mongoSanitize xss hpp jsonParser cookieParser
            urlencoded)
    with (List.map (App.Use "/") stack).
  split.
  - intros err r Hfail. now rewrite (dispatch_failsWith _ _ req r err Hfail).
  - intros res Hans. now apply dispatch_answersWith.
Qed.

Lemma middleware_outcome_bypasses_the_routes_witness :
  @App.app Demo.uriDecoder
          Demo.passThrough Demo.passThrough Demo.passThrough Demo.passThrough
          Demo.failingParser Demo.passThrough Demo.passThrough
          Demo.answeringRouter Demo.answeringRouter Demo.answeringRouter
          Demo.answeringRouter Demo.plainError
          {| App.method := "POST"; App.pathname := "/api/users/login" |}
  = Demo.plainError (JsError "Unexpected token")
      {| App.method := "POST"; App.pathname := "/api/users/login" |}.
Proof.
  apply (proj1 (@middleware_outcome_bypasses_the_routes Demo.uriDecoder
                  Demo.passThrough Demo.passThrough Demo.passThrough
                  Demo.passThrough Demo.failingParser Demo.passThrough
                  Demo.passThrough Demo.answeringRouter Demo.answeringRouter
                  Demo.answeringRouter Demo.answeringRouter Demo.plainError
                  {| App.method := "POST";
                     App.pathname := "/api/users/login" |})).
  reflexivity.
Defined.

Lemma stripPrefix_char (m p rest : string) (i : nat) (a : ascii) :
  App.stripPrefix m p = Some rest ->
  String.get i m = Some a ->
  exists b, String.get i p = Some b /\ App.toLower a = App.toLower b.
Proof.
  revert p i. induction m as [|x m IH]; intros p i Hstrip Hget;
    [discriminate|].
  destruct p as [|y p]; [discriminate|]. simpl in Hstrip.
  destruct (Ascii.eqb (App.toLower x) (App.toLower y)) eqn:Hxy;
    [|discriminate].
  apply Ascii.eqb_eq in Hxy. destruct i as [|i]; simpl in *.
  - injection Hget as <-. now exists y.
  - now apply (IH p i).
Qed.

Lemma mountMatches_prefix (mount path : string) :
  String.eqb mount "/" = false ->
  App.mountMatches mount path = true ->
  exists rest, App.stripPrefix mount path = Some rest.
Proof.
  unfold App.mountMatches. intros ->.
  destruct (App.stripPrefix mount path) as [rest|]; [eauto|discriminate].
Qed.

(** Two mount paths that differ, case aside, at some position cannot both
    match one request path. *)
Lemma mounts_exclude (m1 m2 path : string) (i : nat) (a1 a2 : ascii) :
  String.eqb m1 "/" = false -> String.eqb m2 "/" = false ->
  String.get i m1 = Some a1 -> String.get i m2 = Some a2 ->
  App.toLower a1 <> App.toLower a2 ->
  App.mountMatches m1 path = true -> App.mountMatches m2 path = false.
Proof.
  intros H1 H2 Hg1 Hg2 Hdiff Hm1.
  destruct (App.mountMatches m2 path) eqn:Hm2; [|reflexivity].
  destruct (mountMatches_prefix m1 path H1 Hm1) as [r1 Hs1].
  destruct (mountMatches_prefix m2 path H2 Hm2) as [r2 Hs2].
  destruct (stripPrefix_char _ _ _ _ _ Hs1 Hg1) as (b1 & Hb1 & Hl1).
  destruct (stripPrefix_char _ _ _ _ _ Hs2 Hg2) as (b2 & Hb2 & Hl2).
  congruence.
Qed.

Ltac other_mount :=
  eapply (mounts_exclude _ _ _ 5%nat); [| | | | |eassumption];
  [reflexivity | reflexivity | reflexivity | reflexivity
  | vm_compute; discriminate].

(** X19.  A request that reaches the routes and whose path lies under one
    of the four mounted prefixes is seen by that prefix's router and by no
    other: no other prefix matches the path, a response from the router is
    the response of the application, and an error the router passes to
    [next] is answered by the global error handler. *)
Theorem mounted_router_decides {D : UriDecoder}
  (helmet mongoSanitize xss hpp jsonParser cookieParser urlencoded
     userRouter dashboardRouter taskRouter settingsRouter : App.Middleware)
  (errorController : App.ErrorMiddleware) (req req' : App.HttpRequest)
  (mount : string) (router : App.Middleware) :
  let table := [("/api/users", userRouter); ("/api/dashboard", dashboardRouter);
                ("/api/tasks", taskRouter); ("/api/settings", settingsRouter)]
  in
  let response :=
    App.app helmet mongoSanitize xss hpp jsonParser cookieParser urlencoded
            userRouter dashboardRouter taskRouter settingsRouter
            errorController req in
  App.handsOn [helmet; mongoSanitize; xss; hpp; App.cors;
               jsonParser; cookieParser; urlencoded] req = Some req' ->
  In (mount, router) table ->
  App.mountMatches mount (App.pathname req') = true ->
  (forall mount' router', In (mount', router') table -> mount' <> mount ->
                          App.mountMatches mount' (App.pathname req') = false)
  /\ (forall res, router req' = App.Respond res -> response = res)
  /\ (forall err, router req' = App.PassError err ->
                  response = errorController err req').
Proof.
  intros table response Hpass Hin Hmatch. subst response. unfold App.app.
  change (App.middlewares helmet mongoSanitize xss hpp jsonParser cookieParser
            urlencoded)
    with (List.map (App.Use "/")
            [helmet; mongoSanitize; xss; hpp; App.cors;
             jsonParser; cookieParser; urlencoded]).
  rewrite (dispatch_handsOn _ _ req req' Hpass).
  unfold App.routes. cbn [app App.dispatch].
  rewrite !matchLayer_plain by reflexivity.
  simpl in Hin.
  destruct Hin as [Heq|[Heq|[Heq|[Heq|[]]]]]; injection Heq as <- <-.
  - split; [|rewrite Hmatch; split].
    + intros m r [E|[E|[E|[E|[]]]]] Hne; injection E as <- <-;
        first [congruence | other_mount].
    + now intros res ->.
    + now intros err ->.
  - assert (App.mountMatches "/api/users" (App.pathname req') = false)
      as -> by other_mount.
    split; [|rewrite Hmatch; split].
    + intros m r [E|[E|[E|[E|[]]]]] Hne; injection E as <- <-;
        first [congruence | other_mount].
    + now intros res ->.
    + now intros err ->.
  - assert (App.mountMatches "/api/users" (App.pathname req') = false)
      as -> by other_mount.
    assert (App.mountMatches "/api/dashboard" (App.pathname req') = false)
      as -> by other_mount.
    split; [|rewrite Hmatch; split].
    + intros m r [E|[E|[E|[E|[]]]]] Hne; injection E as <- <-;
        first [congruence | other_mount].
    + now intros res ->.
    + now intros err ->.
  - assert (App.mountMatches "/api/users" (App.pathname req') = false)
      as -> by other_mount.
    assert (App.mountMatches "/api/dashboard" (App.pathname req') = false)
      as -> by other_mount.
    assert (App.mountMatches "/api/tasks" (App.pathname req') = false)
      as -> by other_mount.
    split; [|rewrite Hmatch; split].
    + intros m r [E|[E|[E|[E|[]]]]] Hne; injection E as <- <-;
        first [congruence | other_mount].
    + now intros res ->.
    + now intros err ->.
Qed.

Lemma mounted_router_decides_witness :
  @App.app Demo.uriDecoder
          Demo.passThrough Demo.passThrough Demo.passThrough Demo.passThrough
          Demo.passThrough Demo.passThrough Demo.passThrough
          Demo.passThrough Demo.passThrough Demo.answeringRouter
          Demo.passThrough Demo.plainError
          {| App.method := "GET"; App.pathname := "/API/Tasks/42" |}
  = {| statusCode := 200; cookies := []; body := StatusBody "success" |}.
Proof.
  refine (proj1 (proj2 (@mounted_router_decides Demo.uriDecoder
            Demo.passThrough Demo.passThrough Demo.passThrough
            Demo.passThrough Demo.passThrough Demo.passThrough
            Demo.passThrough Demo.passThrough Demo.passThrough
            Demo.answeringRouter Demo.passThrough Demo.plainError
            {| App.method := "GET"; App.pathname := "/API/Tasks/42" |}
            {| App.method := "GET"; App.pathname := "/API/Tasks/42" |}
            "/api/tasks" Demo.answeringRouter _ _ _)) _ _).
  - reflexivity.
  - right. right. left. reflexivity.
  - reflexivity.
  - reflexivity.
Defined.

Lemma deleteMe_removes_the_record_whoever_asks_witness :
  users (snd (deleteMe "5f1a" (Demo.request None None [] (Some Demo.bob))
                Demo.twoUsers))
  = [Demo.bob]
  /\ List.find (fun d => String.eqb (User._id d) "7c2e")
               (users (snd (deleteMe "5f1a"
                              (Demo.request None None [] (Some Demo.bob))
                              Demo.twoUsers)))
     = Some Demo.bob.
Proof.
  split; [reflexivity|].
  rewrite (proj1 (proj2 (proj2 (deleteMe_removes_the_record_whoever_asks
                                  "5f1a"
                                  (Demo.request None None [] (Some Demo.bob))
                                  (Demo.request None None [] None)
                                  Demo.twoUsers))) "7c2e").
  - reflexivity.
  - discriminate.
Defined.
